(** * minikube delete: teardown orchestration and the mount-process reaper

    A shallow embedding of [cmd/minikube/cmd/delete.go].  The command is
    stateful and talks to many collaborators, so the embedding is a small
    monad that threads the machine state, collects the observable events
    (output, log lines, system calls, collaborator calls) and models
    process termination ([os.Exit]) as an outcome that short-circuits what
    follows. *)

From Stdlib Require Import ZArith String Ascii List Lia.
From stdpp Require Import base gmap strings list pretty.

Local Open Scope string_scope.
Local Open Scope Z_scope.

(** ** Errors *)

(** A path is the list of its components; [filepath.Join] appends.  Profile
    names are directory entries, hence single components. *)
Abbreviation path := (list string).

Inductive errno := ENOENT | EACCES | EPERM | EIO | EISDIR | ENOTEMPTY | ESRCH.

Inductive numerr := ErrSyntax | ErrRange.

(** Go [error] values, as far as delete.go tells them apart: operating
    system errors, [strconv.NumError], libmachine's
    [mcnerror.ErrHostDoesNotExist], opaque errors of collaborators, and
    [errors.Wrap]. *)
Inductive error :=
| OsError (e : errno)
| NumError (fn : string) (num : string) (e : numerr)
| ErrHostDoesNotExist (name : string)
| ErrorString (msg : string)
| Wrapped (cause : error) (msg : string).

(** [errors.Wrap(err, msg)] for a non-nil [err]. *)
Definition errors_Wrap (err : error) (msg : string) : error := Wrapped err msg.

(** [errors.Cause]: the innermost error below every wrapper. *)
Fixpoint errors_Cause (err : error) : error :=
  match err with
  | Wrapped cause _ => errors_Cause cause
  | _ => err
  end.

(** [os.IsNotExist]: looks at the operating-system error only; it does not
    see through [errors.Wrap]. *)
Definition os_IsNotExist (err : option error) : bool :=
  match err with
  | Some (OsError ENOENT) => true
  | _ => false
  end.

(** The [case mcnerror.ErrHostDoesNotExist] of the type switch. *)
Definition isErrHostDoesNotExist (err : error) : bool :=
  match err with
  | ErrHostDoesNotExist _ => true
  | _ => false
  end.

(** ** [strconv.Atoi] *)

Definition digit_of (c : ascii) : option Z :=
  let n := Z.of_N (N_of_ascii c) in
  if (48 <=? n) && (n <=? 57) then Some (n - 48) else None.

Fixpoint digits_from (acc : Z) (s : string) : option Z :=
  match s with
  | EmptyString => Some acc
  | String c rest =>
      match digit_of c with
      | Some d => digits_from (acc * 10 + d) rest
      | None => None
      end
  end.

Definition parse_digits (s : string) : option Z :=
  match s with
  | EmptyString => None
  | _ => digits_from 0 s
  end.

Definition minInt : Z := - 2 ^ 63.
Definition maxInt : Z := 2 ^ 63 - 1.

(** Base 10, an optional sign, at least one digit, nothing else (no
    surrounding white space), within the range of [int]. *)
Definition strconv_Atoi (s : string) : Z + error :=
  let syntax := inr (NumError "Atoi" s ErrSyntax) in
  match s with
  | EmptyString => syntax
  | String c rest =>
      let neg := Ascii.eqb c "-"%char in
      let body := if neg || Ascii.eqb c "+"%char then rest else s in
      match parse_digits body with
      | None => syntax
      | Some n =>
          let v := if neg then - n else n in
          if (minInt <=? v) && (v <=? maxInt) then inl v
          else inr (NumError "Atoi" s ErrRange)
      end
  end.

(** ** Events *)

(** The styles of [out.T] that delete.go uses. *)
Inductive Style :=
| Embarrassed | Notice | Crushed | Sad | FailureType | Meh | Resetting
| Empty | DeletingHost.

(** Arguments of a format string or an [out.V] template map. *)
Inductive Val :=
| VStr (s : string)
| VInt (z : Z)
| VBool (b : bool)
| VPath (p : path)
| VErr (e : error).

(** The system calls of delete.go: file system and process table. *)
Inductive Syscall :=
| SysStat (p : path)
| SysReadFile (p : path)
| SysRemove (p : path)
| SysRemoveAll (p : path)
| SysPsFindProcess (pid : Z)
| SysOsFindProcess (pid : Z)
| SysKill (pid : Z).

Record KubernetesConfig := { KubernetesVersion : string }.
Record MachineConfig := { VMDriver : string }.
Record Config := { MachineConfig_ : MachineConfig; KubernetesConfig_ : KubernetesConfig }.
Record Profile := { Name : string }.

(** Calls into the collaborators that can read or change state. *)
Inductive Call :=
| CListProfiles
| CSet (key value : string)
| CUnset (key : string)
| CNewAPIClient
| CClose
| CLoad
| CGetClusterBootstrapper (bsName : string)
| CDeleteCluster (kc : KubernetesConfig)
| CDeleteHost
| CDeleteProfile (profile : string)
| CDeleteContext (kubeconfig machineName : string).

Inductive Event :=
| Glog (format : string) (args : list Val)
| OutT (st : Style) (format : string) (v : list (string * Val))
| OutErrT (st : Style) (format : string) (v : list (string * Val))
| EvSys (c : Syscall) (err : option error)
| EvCall (c : Call) (err : option error)
| EvUsage (message : string)
| EvFatal (message : string) (err : error).

(** ** Machine state *)

Inductive node := Dir | File (contents : string).

(** Failures that the environment can impose on a system call that would
    otherwise succeed (permissions, a read-only or failing disk, a process
    of another user). *)
Inductive fault := FaultAccess | FaultPerm | FaultIO.

Definition fault_errno (f : fault) : errno :=
  match f with
  | FaultAccess => EACCES
  | FaultPerm => EPERM
  | FaultIO => EIO
  end.

Section Machine.

(** State owned by the collaborators (hypervisor, credentials file, ...). *)
Context {Ext : Type}.

Record State := mkState {
  fs : gmap path node;          (* files and directories *)
  procs : gmap Z string;        (* live processes: pid to executable *)
  faults : Syscall -> option fault;
  ext : Ext
}.

Definition set_fs (s : State) (fs' : gmap path node) : State :=
  mkState fs' (procs s) (faults s) (ext s).

Definition set_procs (s : State) (procs' : gmap Z string) : State :=
  mkState (fs s) procs' (faults s) (ext s).

(** ** The monad *)

Inductive Outcome (A : Type) :=
| Ret (a : A)            (* the call returned *)
| Exited (status : Z).   (* the process terminated *)

Record Run (A : Type) := mkRun {
  outcome : Outcome A;
  final : State;
  events : list Event
}.

Definition M (A : Type) : Type := State -> Run A.

End Machine.

Arguments State : clear implicits.
Arguments Ret {A} a.
Arguments Exited {A} status.
Arguments Run : clear implicits.
Arguments mkRun {Ext A} outcome final events.
Arguments outcome {Ext A} r.
Arguments final {Ext A} r.
Arguments events {Ext A} r.
Arguments M : clear implicits.

Section Monad.

Context {Ext : Type}.

Definition ret {A} (a : A) : M Ext A := fun s => mkRun (Ret a) s [].

Definition bind {A B} (m : M Ext A) (f : A -> M Ext B) : M Ext B :=
  fun s =>
    match m s with
    | mkRun (Ret a) s' evs =>
        match f a s' with
        | mkRun o s'' evs' => mkRun o s'' (evs ++ evs')
        end
    | mkRun (Exited status) s' evs => mkRun (Exited status) s' evs
    end.

Definition emit (e : Event) : M Ext unit := fun s => mkRun (Ret tt) s [e].

(** [os.Exit]: nothing after it runs, deferred calls included. *)
Definition os_Exit {A} (status : Z) : M Ext A := fun s => mkRun (Exited status) s [].

End Monad.

Declare Scope go_scope.
Delimit Scope go_scope with go.
Notation "x <- m ;; k" := (bind m (fun x => k))
  (at level 100, m at next level, right associativity) : go_scope.
Notation "m ;; k" := (bind m (fun _ => k))
  (at level 100, right associativity) : go_scope.
Local Open Scope go_scope.

(** ** System calls *)

Section Syscalls.

Context {Ext : Type}.

Definition injected (s : State Ext) (c : Syscall) : option error :=
  (fun f => OsError (fault_errno f)) <$> faults s c.

(** [os.Stat], keeping only the error. *)
Definition stat_result (s : State Ext) (p : path) : option error :=
  match injected s (SysStat p) with
  | Some e => Some e
  | None =>
      match fs s !! p with
      | Some _ => None
      | None => Some (OsError ENOENT)
      end
  end.

Definition os_Stat (p : path) : M Ext (option error) :=
  fun s => let r := stat_result s p in mkRun (Ret r) s [EvSys (SysStat p) r].

(** [ioutil.ReadFile]. *)
Definition read_result (s : State Ext) (p : path) : string + error :=
  match injected s (SysReadFile p) with
  | Some e => inr e
  | None =>
      match fs s !! p with
      | Some (File contents) => inl contents
      | Some Dir => inr (OsError EISDIR)
      | None => inr (OsError ENOENT)
      end
  end.

Definition err_of {A} (r : A + error) : option error :=
  match r with
  | inl _ => None
  | inr e => Some e
  end.

Definition ioutil_ReadFile (p : path) : M Ext (string + error) :=
  fun s => let r := read_result s p in mkRun (Ret r) s [EvSys (SysReadFile p) (err_of r)].

(** The entries strictly below [p]. *)
Definition has_children (m : gmap path node) (p : path) : bool :=
  bool_decide (filter (fun kv => p `prefix_of` kv.1 /\ kv.1 <> p) m <> ∅).

(** [os.Remove]: a file, or an empty directory. *)
Definition remove_result (s : State Ext) (p : path) : option error :=
  match injected s (SysRemove p) with
  | Some e => Some e
  | None =>
      match fs s !! p with
      | None => Some (OsError ENOENT)
      | Some (File _) => None
      | Some Dir => if has_children (fs s) p then Some (OsError ENOTEMPTY) else None
      end
  end.

Definition os_Remove (p : path) : M Ext (option error) :=
  fun s =>
    let r := remove_result s p in
    let s' := match r with
              | None => set_fs s (delete p (fs s))
              | Some _ => s
              end in
    mkRun (Ret r) s' [EvSys (SysRemove p) r].

(** [os.RemoveAll]: the path and everything below it; an absent path is
    not an error.  A removal that fails is taken to have removed nothing. *)
Definition remove_all (m : gmap path node) (p : path) : gmap path node :=
  filter (fun kv => ~ p `prefix_of` kv.1) m.

Definition removeall_result (s : State Ext) (p : path) : option error :=
  injected s (SysRemoveAll p).

Definition os_RemoveAll (p : path) : M Ext (option error) :=
  fun s =>
    let r := removeall_result s p in
    let s' := match r with
              | None => set_fs s (remove_all (fs s) p)
              | Some _ => s
              end in
    mkRun (Ret r) s' [EvSys (SysRemoveAll p) r].

(** [ps.FindProcess]: the executable of a live process, [None] (a nil
    entry and a nil error) when the process table has no such pid. *)
Definition psfind_result (s : State Ext) (pid : Z) : option string + error :=
  match injected s (SysPsFindProcess pid) with
  | Some e => inr e
  | None => inl (procs s !! pid)
  end.

Definition ps_FindProcess (pid : Z) : M Ext (option string + error) :=
  fun s =>
    let r := psfind_result s pid in
    mkRun (Ret r) s [EvSys (SysPsFindProcess pid) (err_of r)].

(** [os.FindProcess]: a handle on the pid; it does not look at the table. *)
Definition osfind_result (s : State Ext) (pid : Z) : Z + error :=
  match injected s (SysOsFindProcess pid) with
  | Some e => inr e
  | None => inl pid
  end.

Definition os_FindProcess (pid : Z) : M Ext (Z + error) :=
  fun s =>
    let r := osfind_result s pid in
    mkRun (Ret r) s [EvSys (SysOsFindProcess pid) (err_of r)].

(** [proc.Kill]: the signal is delivered to a live process, which leaves
    the process table, unless the environment refuses it. *)
Definition kill_result (s : State Ext) (pid : Z) : option error :=
  match injected s (SysKill pid) with
  | Some e => Some e
  | None =>
      match procs s !! pid with
      | Some _ => None
      | None => Some (OsError ESRCH)
      end
  end.

Definition proc_Kill (pid : Z) : M Ext (option error) :=
  fun s =>
    let r := kill_result s pid in
    let s' := match r with
              | None => set_procs s (delete pid (procs s))
              | Some _ => s
              end in
    mkRun (Ret r) s' [EvSys (SysKill pid) r].

End Syscalls.

(** ** Collaborators *)

(** Everything delete.go reaches outside its own file: constants of other
    packages, the flag store, and the packages that keep profiles, hosts
    and credentials.  A collaborator that touches state is a function on
    the state; what it does there is its own business.  The flags are
    bound once, when the command starts, so the flag store answers the
    same throughout a run. *)
Record Collaborators (Ext API Bootstrapper : Type) := {
  localpath_MiniPath : path;
  constants_MountProcessFileName : string;
  constants_KubeconfigPath : string;
  constants_DriverNone : string;
  pkg_config_MachineProfile : string;
  cmdcfg_Bootstrapper : string;
  viper_GetBool : string -> bool;
  viper_IsSet : string -> bool;
  viper_GetString : string -> string;
  (* "returns an ordered list of profile names plus any enumeration error":
     the enumeration reads the profile store and changes nothing *)
  pkg_config_ListProfiles : State Ext -> list Profile * list Profile * option error;
  cmdcfg_Set : string -> string -> State Ext -> option error * State Ext;
  cmdcfg_Unset : string -> State Ext -> option error * State Ext;
  machine_NewAPIClient : State Ext -> (API + error) * State Ext;
  api_Close : API -> State Ext -> State Ext;
  pkg_config_Load : State Ext -> (Config + error) * State Ext;
  getClusterBootstrapper :
    API -> string -> State Ext -> (Bootstrapper + error) * State Ext;
  bootstrapper_DeleteCluster :
    Bootstrapper -> KubernetesConfig -> State Ext -> option error * State Ext;
  cluster_DeleteHost : API -> State Ext -> option error * State Ext;
  pkg_config_DeleteProfile : string -> State Ext -> option error * State Ext;
  pkg_config_GetMachineName : State Ext -> string;
  kubeconfig_DeleteContext : string -> string -> State Ext -> option error * State Ext;
  (* exit statuses of package exit *)
  exit_BadUsage : Z;
  exit_status : string -> error -> Z
}.

Arguments localpath_MiniPath {Ext API Bootstrapper} c.
Arguments constants_MountProcessFileName {Ext API Bootstrapper} c.
Arguments constants_KubeconfigPath {Ext API Bootstrapper} c.
Arguments constants_DriverNone {Ext API Bootstrapper} c.
Arguments pkg_config_MachineProfile {Ext API Bootstrapper} c.
Arguments cmdcfg_Bootstrapper {Ext API Bootstrapper} c.
Arguments viper_GetBool {Ext API Bootstrapper} c _.
Arguments viper_IsSet {Ext API Bootstrapper} c _.
Arguments viper_GetString {Ext API Bootstrapper} c _.
Arguments pkg_config_ListProfiles {Ext API Bootstrapper} c _.
Arguments cmdcfg_Set {Ext API Bootstrapper} c _ _ _.
Arguments cmdcfg_Unset {Ext API Bootstrapper} c _ _.
Arguments machine_NewAPIClient {Ext API Bootstrapper} c _.
Arguments api_Close {Ext API Bootstrapper} c _ _.
Arguments pkg_config_Load {Ext API Bootstrapper} c _.
Arguments getClusterBootstrapper {Ext API Bootstrapper} c _ _ _.
Arguments bootstrapper_DeleteCluster {Ext API Bootstrapper} c _ _ _.
Arguments cluster_DeleteHost {Ext API Bootstrapper} c _ _.
Arguments pkg_config_DeleteProfile {Ext API Bootstrapper} c _ _.
Arguments pkg_config_GetMachineName {Ext API Bootstrapper} c _.
Arguments kubeconfig_DeleteContext {Ext API Bootstrapper} c _ _ _.
Arguments exit_BadUsage {Ext API Bootstrapper} c.
Arguments exit_status {Ext API Bootstrapper} c _ _.

(** The package exit terminates with a status other than zero. *)
Definition exits_nonzero {Ext API Bootstrapper}
    (C : Collaborators Ext API Bootstrapper) : Prop :=
  exit_BadUsage C <> 0 /\ forall msg err, exit_status C msg err <> 0.

(** [filepath.Join] of a directory and further components. *)
Definition filepath_Join (dir : path) (elems : list string) : path := app dir elems.

(** ** delete.go *)

(** A template text between double quotes, as the raw string literals of
    the messages have it. *)
Definition quoted (s : string) : string :=
  let q := String (ascii_of_N 34) EmptyString in q +:+ s +:+ q.

Definition purge : string := "purge".
Definition forcedelete : string := "forcedelete".

Section Delete.

Context {Ext API Bootstrapper : Type}.
Variable C : Collaborators Ext API Bootstrapper.

Abbreviation Go := (M Ext).

(** A collaborator call that returns an error or nil. *)
Definition call (c : Call) (f : State Ext -> option error * State Ext)
    : Go (option error) :=
  fun s => let (err, s') := f s in mkRun (Ret err) s' [EvCall c err].

(** A collaborator call that returns a value or an error. *)
Definition call_val {A} (c : Call) (f : State Ext -> (A + error) * State Ext)
    : Go (A + error) :=
  fun s => let (r, s') := f s in mkRun (Ret r) s' [EvCall c (err_of r)].

(** A collaborator call without a result that delete.go looks at. *)
Definition call_ (c : Call) (f : State Ext -> State Ext) : Go unit :=
  fun s => mkRun (Ret tt) (f s) [EvCall c None].

(** Reading a value off the state. *)
Definition get {A} (f : State Ext -> A) : Go A :=
  fun s => mkRun (Ret (f s)) s [].

(** [validProfiles, _, err := pkg_config.ListProfiles()] *)
Definition listProfiles : Go (list Profile * option error) :=
  fun s =>
    let '(validProfiles, _, err) := pkg_config_ListProfiles C s in
    mkRun (Ret (validProfiles, err)) s [EvCall CListProfiles err].

(** Modelled from the spec: [exit.WithError] of package exit, which is not
    in this file: "immediate process termination, nonzero status".  It
    reports the message and the error, then terminates. *)
Definition exit_WithError {A} (msg : string) (err : error) : Go A :=
  emit (EvFatal msg err) ;; os_Exit (exit_status C msg err).

(** Modelled from the spec: [exit.UsageT] of package exit, which is not in
    this file: "immediate termination, usage message, nonzero status". *)
Definition exit_UsageT {A} (msg : string) : Go A :=
  emit (EvUsage msg) ;; os_Exit (exit_BadUsage C).

(** [for _, x := range xs { body }] *)
Fixpoint forEach {A} (xs : list A) (body : A -> Go unit) : Go unit :=
  match xs with
  | [] => ret tt
  | x :: rest => body x ;; forEach rest body
  end.

(** The fixed path of the PID file. *)
Definition mountProcessPath : path :=
  filepath_Join (localpath_MiniPath C) [constants_MountProcessFileName C].

(** killMountProcess kills the mount process, if it is running *)
Definition killMountProcess : Go (option error) :=
  let pidPath := mountProcessPath in
  err <- os_Stat pidPath ;;
  if os_IsNotExist err then ret None
  else
    emit (Glog "Found %s ..." [VPath pidPath]) ;;
    out <- ioutil_ReadFile pidPath ;;
    match out with
    | inr err => ret (Some (errors_Wrap err "ReadFile"))
    | inl out =>
        emit (Glog "pidfile contents: %s" [VStr out]) ;;
        match strconv_Atoi out with
        | inr err => ret (Some (errors_Wrap err "error parsing pid"))
        | inl pid =>
            entry <- ps_FindProcess pid ;;
            match entry with
            | inr err => ret (Some (errors_Wrap err "ps.FindProcess"))
            | inl None =>
                emit (Glog "Stale pid: %d" [VInt pid]) ;;
                err <- os_Remove pidPath ;;
                match err with
                | Some err => ret (Some (errors_Wrap err "Removing stale pid"))
                | None => ret None
                end
            | inl (Some executable) =>
                emit (Glog "Found process %d: %s" [VInt pid; VStr executable]) ;;
                proc <- os_FindProcess pid ;;
                match proc with
                | inr err => ret (Some (errors_Wrap err "os.FindProcess"))
                | inl proc =>
                    emit (Glog "Killing pid %d ..." [VInt pid]) ;;
                    err <- proc_Kill proc ;;
                    match err with
                    | Some err =>
                        emit (Glog "Kill failed with %v - removing probably stale pid..."
                                [VErr err]) ;;
                        rmErr <- os_Remove pidPath ;;
                        match rmErr with
                        | Some rmErr =>
                            ret (Some (errors_Wrap rmErr
                                         "Removing likely stale unkillable pid"))
                        | None =>
                            ret (Some (errors_Wrap err
                                         ("Kill(" +:+ pretty pid +:+ "/" +:+ executable +:+ ")")))
                        end
                    | None => ret None
                    end
                end
            end
        end
    end.

(** One of the two blocks of deleteProfileDirectory, which differ in the
    directory only: [if _, err := os.Stat(dir); err == nil { ... }]. *)
Definition removeDirectory (dir : path) : Go unit :=
  statErr <- os_Stat dir ;;
  match statErr with
  | None =>
      emit (OutT DeletingHost "Removing {{.directory}} ..." [("directory", VPath dir)]) ;;
      err <- os_RemoveAll dir ;;
      match err with
      | Some err => exit_WithError "Unable to remove machine directory: %v" err
      | None => ret tt
      end
  | Some _ => ret tt
  end.

Definition machineDir (profile : string) : path :=
  filepath_Join (localpath_MiniPath C) ["machines"; profile].

Definition profileDir (profile : string) : path :=
  filepath_Join (localpath_MiniPath C) ["profiles"; profile].

Definition deleteProfileDirectory (profile : string) : Go unit :=
  removeDirectory (machineDir profile) ;;
  removeDirectory (profileDir profile).

Definition uninstallKubernetes (api : API) (kc : KubernetesConfig) (bsName : string)
    : Go unit :=
  emit (OutT Resetting
          "Uninstalling Kubernetes {{.kubernetes_version}} using {{.bootstrapper_name}} ..."
          [("kubernetes_version", VStr (KubernetesVersion kc));
           ("bootstrapper_name", VStr bsName)]) ;;
  clusterBootstrapper <-
    call_val (CGetClusterBootstrapper bsName) (getClusterBootstrapper C api bsName) ;;
  match clusterBootstrapper with
  | inr err =>
      emit (OutErrT Empty "Unable to get bootstrapper: {{.error}}" [("error", VErr err)])
  | inl clusterBootstrapper =>
      err <- call (CDeleteCluster kc) (bootstrapper_DeleteCluster C clusterBootstrapper kc) ;;
      match err with
      | Some err =>
          emit (OutErrT Empty "Failed to delete cluster: {{.error}}" [("error", VErr err)])
      | None => ret tt
      end
  end.

Definition deleteProfile (profile : string) : Go unit :=
  emit (Glog "Setting current profile to -- %v" [VStr profile]) ;;
  err <- call (CSet (pkg_config_MachineProfile C) profile)
           (cmdcfg_Set C (pkg_config_MachineProfile C) profile) ;;
  match err with
  | Some err => exit_WithError "Setting profile failed" err
  | None =>
  emit (Glog "Successfully set profile to -- %v" [VStr profile]) ;;
  api <- call_val CNewAPIClient (machine_NewAPIClient C) ;;
  match api with
  | inr err => exit_WithError "Error getting client" err
  | inl api =>
  (* defer api.Close(): runs when deleteProfile returns, see the last line *)
  cc <- call_val CLoad (pkg_config_Load C) ;;
  match cc with
  | inr err =>
      if negb (os_IsNotExist (Some err)) then
        emit (OutErrT Sad "Error loading profile {{.name}}: {{.error}}"
                [("name", VStr profile); ("error", VErr err)])
      else ret tt
  | inl _ => ret tt
  end ;;
  (* In the case of "none", we want to uninstall Kubernetes as there is no VM to delete *)
  match cc with
  | inl cc =>
      if String.eqb (VMDriver (MachineConfig_ cc)) (constants_DriverNone C) then
        uninstallKubernetes api (KubernetesConfig_ cc)
          (viper_GetString C (cmdcfg_Bootstrapper C))
      else ret tt
  | inr _ => ret tt
  end ;;
  err <- killMountProcess ;;
  match err with
  | Some err =>
      emit (OutT FailureType "Failed to kill mount process: {{.error}}" [("error", VErr err)])
  | None => ret tt
  end ;;
  err <- call CDeleteHost (cluster_DeleteHost C api) ;;
  match err with
  | Some err =>
      if isErrHostDoesNotExist (errors_Cause err) then
        emit (OutT Meh
                (quoted "{{.name}}" +:+ " cluster does not exist. Proceeding ahead with cleanup.")
                [("name", VStr profile)])
      else
        emit (OutT FailureType "Failed to delete cluster: {{.error}}" [("error", VErr err)]) ;;
        emit (OutT Notice
                ("You may need to manually remove the " +:+ quoted "{{.name}}"
                   +:+ " VM from your hypervisor")
                [("name", VStr profile)])
  | None => ret tt
  end ;;
  (* In case DeleteHost didn't complete the job. *)
  deleteProfileDirectory profile ;;
  err <- call (CDeleteProfile profile) (pkg_config_DeleteProfile C profile) ;;
  match err with
  | Some err =>
      (if os_IsNotExist (Some err) then
         emit (OutT Meh (quoted "{{.name}}" +:+ " profile does not exist") [("name", VStr profile)]) ;;
         os_Exit 0
       else ret tt) ;;
      exit_WithError "Failed to remove profile" err
  | None => ret tt
  end ;;
  emit (OutT Crushed ("The " +:+ quoted "{{.name}}" +:+ " cluster has been deleted.") [("name", VStr profile)]) ;;
  machineName <- get (pkg_config_GetMachineName C) ;;
  err <- call (CDeleteContext (constants_KubeconfigPath C) machineName)
           (kubeconfig_DeleteContext C (constants_KubeconfigPath C) machineName) ;;
  match err with
  | Some err => exit_WithError "update config" err
  | None => ret tt
  end ;;
  err <- call (CUnset (pkg_config_MachineProfile C))
           (cmdcfg_Unset C (pkg_config_MachineProfile C)) ;;
  match err with
  | Some err => exit_WithError "unset minikube profile" err
  | None => ret tt
  end ;;
  call_ CClose (api_Close C api)
  end
  end.

(** [err == nil] *)
Definition isNil (err : option error) : bool :=
  match err with
  | None => true
  | Some _ => false
  end.

(** The condition of the guard: purge asked for, several profiles, no
    force. *)
Definition guard (validProfiles : list Profile) (err : option error) : bool :=
  isNil err && viper_GetBool C purge && (1 <? Z.of_nat (length validProfiles))
  && negb (viper_GetBool C forcedelete).

(** runDelete handles the executes the flow of "minikube delete" *)
Definition runDelete (args : list string) : Go unit :=
  (if 0 <? Z.of_nat (length args) then exit_UsageT "Usage: minikube delete"
   else ret tt) ;;
  listed <- listProfiles ;;
  let '(validProfiles, err) := listed in
  (* Check if the purge flag has been set but the force flag hasn't been set
     in case there are multiple profiles to delete. *)
  emit (Glog "%v" [VBool (viper_IsSet C forcedelete)]) ;;
  emit (Glog "%v" [VBool (viper_GetBool C forcedelete)]) ;;
  if guard validProfiles err then
    emit (OutT Embarrassed "Multiple minikube profiles were found - " []) ;;
    forEach validProfiles (fun p =>
      emit (OutT Notice "    - {{.profileName}}" [("profileName", VStr (Name p))])) ;;
    emit (OutT Notice
            "Please use the {{.forceFlag}} to delete all of the configuration and the profiles."
            [("forceFlag", VStr forcedelete)])
  else
    (* Perform all the procedure for each of the profiles which are available. *)
    forEach validProfiles (fun p => deleteProfile (Name p)) ;;
    (* If the purge flag is set, go ahead and delete the .minikube directory. *)
    if viper_GetBool C purge then
      emit (Glog "Purging the '.minikube' directory located at %s"
              [VPath (localpath_MiniPath C)]) ;;
      err <- os_RemoveAll (localpath_MiniPath C) ;;
      match err with
      | Some err => exit_WithError "unable to delete minikube config folder" err
      | None => ret tt
      end ;;
      emit (OutT Crushed
              "Successfully purged minikube directory located at - [{{.minikubeDirectory}}]"
              [("minikubeDirectory", VPath (localpath_MiniPath C))])
    else ret tt.

End Delete.

(** ** Vocabulary of the specification *)

Section Readings.

Context {Ext API Bootstrapper : Type}.
Variable C : Collaborators Ext API Bootstrapper.

(** A run with further events in front of it. *)
Definition prepend {A} (evs : list Event) (r : Run Ext A) : Run Ext A :=
  mkRun (outcome r) (final r) (evs ++ events r).

(** The state after [n] invocations of the reaper. *)
Fixpoint invocations (n : nat) (s : State Ext) : State Ext :=
  match n with
  | O => s
  | S n' => invocations n' (final (killMountProcess C s))
  end.

(** The loop of runDelete: the teardown of every profile, in order. *)
Definition teardownAll (validProfiles : list Profile) : M Ext unit :=
  forEach validProfiles (fun p => deleteProfile C (Name p)).

(** The events of the purge step once the root has been removed with
    result [r]. *)
Definition purgeEvents (r : option error) : list Event :=
  [Glog "Purging the '.minikube' directory located at %s" [VPath (localpath_MiniPath C)];
   EvSys (SysRemoveAll (localpath_MiniPath C)) r] ++
  match r with
  | Some err => [EvFatal "unable to delete minikube config folder" err]
  | None =>
      [OutT Crushed
         "Successfully purged minikube directory located at - [{{.minikubeDirectory}}]"
         [("minikubeDirectory", VPath (localpath_MiniPath C))]]
  end.

(** The purge step: the whole configuration root is removed. *)
Definition purgeRoot : M Ext unit :=
  emit (Glog "Purging the '.minikube' directory located at %s"
          [VPath (localpath_MiniPath C)]) ;;
  err <- os_RemoveAll (localpath_MiniPath C) ;;
  match err with
  | Some err => exit_WithError C "unable to delete minikube config folder" err
  | None => ret tt
  end ;;
  emit (OutT Crushed
          "Successfully purged minikube directory located at - [{{.minikubeDirectory}}]"
          [("minikubeDirectory", VPath (localpath_MiniPath C))]).

(** What runDelete does when the guard does not fire. *)
Definition teardownAndPurge (validProfiles : list Profile) : M Ext unit :=
  teardownAll validProfiles ;;
  if viper_GetBool C purge then purgeRoot else ret tt.

(** What the guard prints. *)
Definition guardOutput (validProfiles : list Profile) : list Event :=
  [OutT Embarrassed "Multiple minikube profiles were found - " []] ++
  map (fun p => OutT Notice "    - {{.profileName}}" [("profileName", VStr (Name p))])
    validProfiles ++
  [OutT Notice
     "Please use the {{.forceFlag}} to delete all of the configuration and the profiles."
     [("forceFlag", VStr forcedelete)]].

(** The two log lines before the guard. *)
Definition flagLog : list Event :=
  [Glog "%v" [VBool (viper_IsSet C forcedelete)];
   Glog "%v" [VBool (viper_GetBool C forcedelete)]].

(** Every event of [m], from any state, satisfies [P]. *)
Definition emits {A} (P : Event -> Prop) (m : M Ext A) : Prop :=
  forall s, Forall P (events (m s)).

(** [m] returns to its caller: it never terminates the process. *)
Definition returns {A} (m : M Ext A) : Prop :=
  forall s, exists a, outcome (m s) = Ret a.

(** Events that signal or delete: what the reaper must not do on some
    paths. *)
Definition isKill (e : Event) : bool :=
  match e with
  | EvSys (SysKill _) _ => true
  | _ => false
  end.

Definition isRemoval (e : Event) : bool :=
  match e with
  | EvSys (SysRemove _) _ | EvSys (SysRemoveAll _) _ => true
  | _ => false
  end.

(** The steps of deleteProfile after the metadata entry is deleted: the
    credentials file, the active-profile pointer, and the deferred close. *)
Definition isLaterStep (e : Event) : bool :=
  match e with
  | EvCall (CDeleteContext _ _) _ | EvCall (CUnset _) _ | EvCall CClose _ => true
  | _ => false
  end.

(** The call that deletes the metadata entry. *)
Definition isMetadataCall (e : Event) : bool :=
  match e with
  | EvCall (CDeleteProfile _) _ => true
  | _ => false
  end.

(** The removal of the configuration root. *)
Definition isRootRemoval (e : Event) : Prop :=
  exists r, e = EvSys (SysRemoveAll (localpath_MiniPath C)) r.

(** The calls that resolve or run the bootstrapper. *)
Definition isBootstrapperCall (e : Event) : bool :=
  match e with
  | EvCall (CGetClusterBootstrapper _) _ | EvCall (CDeleteCluster _) _ => true
  | _ => false
  end.

(** The deferred [api.Close()]. *)
Definition isClose (e : Event) : bool :=
  match e with
  | EvCall CClose _ => true
  | _ => false
  end.

(** The steps of deleteProfile whose failure ends the process through
    [exit.WithError], with the message each one reports. *)
Definition fatalMessage (c : Call) : option string :=
  match c with
  | CSet _ _ => Some "Setting profile failed"
  | CNewAPIClient => Some "Error getting client"
  | CDeleteContext _ _ => Some "update config"
  | CUnset _ => Some "unset minikube profile"
  | _ => None
  end.

(** What the teardown of [profile] may remove, signal or name: the PID
    file, the two directories of the profile, and the profile itself in the
    pointer and the metadata store. *)
Definition ownEffect (profile : string) (e : Event) : Prop :=
  match e with
  | EvSys (SysRemove p) _ => p = mountProcessPath C
  | EvSys (SysRemoveAll p) _ => p = machineDir C profile \/ p = profileDir C profile
  | EvCall (CSet key value) _ => key = pkg_config_MachineProfile C /\ value = profile
  | EvCall (CUnset key) _ => key = pkg_config_MachineProfile C
  | EvCall (CDeleteProfile name) _ => name = profile
  | EvCall (CDeleteContext kubeconfig _) _ => kubeconfig = constants_KubeconfigPath C
  | _ => True
  end.

(** Every run of [m], from any state, has an event that satisfies [E]. *)
Definition always {A} (E : Event -> Prop) (m : M Ext A) : Prop :=
  forall s, exists e, E e /\ In e (events (m s)).

(** A removal of a directory that failed. *)
Definition isFailedRemoval (e : Event) : Prop :=
  exists dir err, e = EvSys (SysRemoveAll dir) (Some err).


End Readings.

(** ** Sample runs *)

Module Sample.

Definition root : path := ["home"; "user"; ".minikube"].

Definition pidFile : path := filepath_Join root [".mount-process"].

(** A configuration root with the directories of profile [a]. *)
Definition tree : gmap path node :=
  <[root := Dir]>
    (<[filepath_Join root ["machines"] := Dir]>
       (<[filepath_Join root ["machines"; "a"] := Dir]>
          (<[filepath_Join root ["profiles"] := Dir]>
             (<[filepath_Join root ["profiles"; "a"] := Dir]>
                (<[filepath_Join root ["profiles"; "a"; "config.json"] := File "{}"]> ∅))))).

Definition noFault : Syscall -> option fault := fun _ => None.

(** The directory of the PID file is read-only. *)
Definition removeDenied : Syscall -> option fault :=
  fun c =>
    match c with
    | SysRemove _ => Some FaultAccess
    | _ => None
    end.

(** The process belongs to somebody else. *)
Definition killDenied : Syscall -> option fault :=
  fun c =>
    match c with
    | SysKill _ => Some FaultPerm
    | _ => None
    end.

Definition readDenied : Syscall -> option fault :=
  fun c =>
    match c with
    | SysReadFile _ => Some FaultAccess
    | _ => None
    end.

(** The tree with a PID file of the given contents, and the mount process
    4242 alive or not. *)
Definition withPidFile (contents : string) (alive : bool) (f : Syscall -> option fault)
    : State unit :=
  mkState (<[pidFile := File contents]> tree)
    (if alive then <[4242 := "minikube"]> ∅ else ∅) f tt.

Definition plain : State unit := mkState tree ∅ noFault tt.

(** No directory of any profile is left. *)
Definition bare : State unit := mkState (<[root := Dir]> ∅) ∅ noFault tt.

Definition noneConfig : Config :=
  {| MachineConfig_ := {| VMDriver := "none" |};
     KubernetesConfig_ := {| KubernetesVersion := "v1.16.0" |} |}.

(** Collaborators that succeed and leave the state alone, but for the
    answers given here. *)
Definition collaborators (purgeFlag forceFlag : bool)
    (profiles : list Profile) (listErr : option error)
    (setErr : option error) (load : Config + error) (metaErr : option error)
    : Collaborators unit unit unit :=
  {| localpath_MiniPath := root;
     constants_MountProcessFileName := ".mount-process";
     constants_KubeconfigPath := "/home/user/.kube/config";
     constants_DriverNone := "none";
     pkg_config_MachineProfile := "profile";
     cmdcfg_Bootstrapper := "bootstrapper";
     viper_GetBool := fun key =>
       if String.eqb key purge then purgeFlag
       else if String.eqb key forcedelete then forceFlag
       else false;
     viper_IsSet := fun key => String.eqb key purge && purgeFlag
                               || String.eqb key forcedelete && forceFlag;
     viper_GetString := fun _ => "kubeadm";
     pkg_config_ListProfiles := fun _ => (profiles, [], listErr);
     cmdcfg_Set := fun _ _ s => (setErr, s);
     cmdcfg_Unset := fun _ s => (None, s);
     machine_NewAPIClient := fun s => (inl tt, s);
     api_Close := fun _ s => s;
     pkg_config_Load := fun s => (load, s);
     getClusterBootstrapper := fun _ _ s => (inl tt, s);
     bootstrapper_DeleteCluster := fun _ _ s => (None, s);
     cluster_DeleteHost := fun _ s => (None, s);
     pkg_config_DeleteProfile := fun _ s => (metaErr, s);
     pkg_config_GetMachineName := fun _ => "minikube";
     kubeconfig_DeleteContext := fun _ _ s => (None, s);
     exit_BadUsage := 64;
     exit_status := fun _ _ => 70 |}.

Definition three : list Profile := [{| Name := "a" |}; {| Name := "b" |}; {| Name := "c" |}].

Definition notFound : error := OsError ENOENT.

(** Nothing special: every collaborator succeeds. *)
Definition quiet : Collaborators unit unit unit :=
  collaborators false false [{| Name := "a" |}] None None (inr notFound) None.

(** Purge asked for, three profiles, no force. *)
Definition guarded : Collaborators unit unit unit :=
  collaborators true false three None None (inr notFound) None.

(** The metadata entry of the profile is already gone. *)
Definition gone : Collaborators unit unit unit :=
  collaborators false false [{| Name := "a" |}] None None (inr notFound) (Some notFound).

(** The same with purge asked for. *)
Definition purgeGone : Collaborators unit unit unit :=
  collaborators true false [{| Name := "a" |}] None None (inr notFound) (Some notFound).

(** Purge asked for, one profile, every collaborator succeeds. *)
Definition purging : Collaborators unit unit unit :=
  collaborators true false [{| Name := "a" |}] None None (inr notFound) None.

(** The profile runs on the "none" driver. *)
Definition inPlace : Collaborators unit unit unit :=
  collaborators false false [{| Name := "a" |}] None None (inl noneConfig) None.

(** The enumeration fails; purge asked for. *)
Definition unlisted : error := ErrorString "open profiles: permission denied".

Definition failing : Collaborators unit unit unit :=
  collaborators true false [] (Some unlisted) None (inr notFound) None.

(** Further faults: the probe, the process table, the process handle and
    the recursive removal refused. *)
Definition statDenied : Syscall -> option fault :=
  fun c =>
    match c with
    | SysStat _ => Some FaultAccess
    | _ => None
    end.

Definition lookupFails : Syscall -> option fault :=
  fun c =>
    match c with
    | SysPsFindProcess _ => Some FaultIO
    | _ => None
    end.

Definition handleDenied : Syscall -> option fault :=
  fun c =>
    match c with
    | SysOsFindProcess _ => Some FaultPerm
    | _ => None
    end.

Definition removeAllDenied : Syscall -> option fault :=
  fun c =>
    match c with
    | SysRemoveAll _ => Some FaultAccess
    | _ => None
    end.

(** The tree without a PID file, under the given faults. *)
Definition faulty (f : Syscall -> option fault) : State unit := mkState tree ∅ f tt.

Definition diskFull : error := ErrorString "no space left on device".

(** The active profile cannot be set. *)
Definition unsettable : Collaborators unit unit unit :=
  collaborators false false [{| Name := "a" |}] None (Some diskFull) (inr notFound) None.

(** Two profiles; the metadata entries are already gone. *)
Definition goneOfTwo : Collaborators unit unit unit :=
  collaborators false false [{| Name := "a" |}; {| Name := "b" |}] None None
    (inr notFound) (Some notFound).


End Sample.

(** ** [strconv.Atoi] on PID file contents *)

Example Atoi_pid : strconv_Atoi "4242" = inl 4242.
Proof. reflexivity. Qed.

Example Atoi_signed : strconv_Atoi "-12" = inl (-12) /\ strconv_Atoi "+7" = inl 7.
Proof. split; reflexivity. Qed.

Example Atoi_trailing_newline :
  strconv_Atoi (String.append "4242" (String (ascii_of_N 10) EmptyString))
  = inr (NumError "Atoi" (String.append "4242" (String (ascii_of_N 10) EmptyString))
           ErrSyntax).
Proof. reflexivity. Qed.

Example Atoi_empty : strconv_Atoi EmptyString = inr (NumError "Atoi" EmptyString ErrSyntax).
Proof. reflexivity. Qed.

Example Atoi_out_of_range :
  strconv_Atoi "9223372036854775808" = inr (NumError "Atoi" "9223372036854775808" ErrRange).
Proof. reflexivity. Qed.

(** ** The monad's equations *)

Section MonadFacts.

Context {Ext : Type}.

Lemma bind_returned {A B} (m : M Ext A) (k : A -> M Ext B) s a :
  outcome (m s) = Ret a ->
  bind m k s = prepend (events (m s)) (k a (final (m s))).
Proof.
  intros H. unfold bind, prepend. destruct (m s) as [o s' evs]. simpl in *. subst o.
  now destruct (k a s').
Qed.

Lemma bind_exited {A B} (m : M Ext A) (k : A -> M Ext B) s status :
  outcome (m s) = Exited status ->
  bind m k s = mkRun (Exited status) (final (m s)) (events (m s)).
Proof.
  intros H. unfold bind. destruct (m s) as [o s' evs]. simpl in H. now subst o.
Qed.

Lemma bind_emit {B} e (k : unit -> M Ext B) s :
  bind (emit e) k s = prepend [e] (k tt s).
Proof. unfold bind, emit, prepend. now destruct (k tt s). Qed.

Lemma prepend_prepend {A} evs evs' (r : Run Ext A) :
  prepend evs (prepend evs' r) = prepend (evs ++ evs') r.
Proof. unfold prepend. simpl. now rewrite app_assoc. Qed.

End MonadFacts.

(** ** The process reaper *)

Section Reaper.

Context {Ext API Bootstrapper : Type}.
Variable C : Collaborators Ext API Bootstrapper.

Ltac run_reaper :=
  unfold killMountProcess, bind, os_Stat, ioutil_ReadFile, ps_FindProcess,
    os_FindProcess, proc_Kill, os_Remove, emit, ret; cbn [outcome final events].

Lemma stat_present (s : State Ext) p :
  is_Some (fs s !! p) -> os_IsNotExist (stat_result s p) = false.
Proof.
  intros [n Hn]. unfold stat_result, injected.
  destruct (faults s (SysStat p)) as [[]|]; simpl; try reflexivity.
  now rewrite Hn.
Qed.

Lemma read_present (s : State Ext) p contents :
  read_result s p = inl contents -> fs s !! p = Some (File contents).
Proof.
  unfold read_result. destruct (injected s (SysReadFile p)); [discriminate|].
  destruct (fs s !! p) as [[|c]|]; try discriminate. now intros [= ->].
Qed.

Ltac reaper_step :=
  match goal with
  | |- context [os_IsNotExist (stat_result ?s ?p)] =>
      destruct (os_IsNotExist (stat_result s p)) eqn:Hstat
  | |- context [read_result ?s ?p] =>
      destruct (read_result s p) as [contents|readErr] eqn:Hread
  | |- context [strconv_Atoi ?c] =>
      destruct (strconv_Atoi c) as [pid'|parseErr] eqn:Hatoi
  | |- context [psfind_result ?s ?z] =>
      destruct (psfind_result s z) as [[exe|]|psErr] eqn:Hps
  | |- context [osfind_result ?s ?z] =>
      destruct (osfind_result s z) as [proc|osErr] eqn:Hos
  | |- context [kill_result ?s ?z] =>
      destruct (kill_result s z) as [killErr'|] eqn:Hkill
  | |- context [remove_result ?s ?p] =>
      destruct (remove_result s p) as [rmErr|] eqn:Hrm
  end; cbn [outcome final events app].

Lemma osfind_handle (s : State Ext) pid proc :
  osfind_result s pid = inl proc -> proc = pid.
Proof.
  unfold osfind_result. destruct (injected s (SysOsFindProcess pid)); congruence.
Qed.

Ltac in_events H :=
  cbn [In] in H;
  repeat match type of H with
    | _ \/ _ => destruct H as [H|H]
    | False => destruct H
    | EvSys (SysKill _) _ = EvSys (SysKill _) _ =>
        first [ discriminate H | inversion H; subst; clear H ]
    | _ = _ => discriminate H
    end.

(** C7: when the termination signal succeeds, the reaper returns success
    and the PID file is still on disk, with its contents; nothing was
    removed. *)
Theorem kill_success_keeps_pid_file (s : State Ext) (pid : Z) :
  In (EvSys (SysKill pid) None) (events (killMountProcess C s)) ->
  outcome (killMountProcess C s) = Ret None /\
  fs (final (killMountProcess C s)) = fs s /\
  (exists contents,
      fs (final (killMountProcess C s)) !! mountProcessPath C = Some (File contents) /\
      strconv_Atoi contents = inl pid) /\
  forallb (fun e => negb (isRemoval e)) (events (killMountProcess C s)) = true.
Proof.
  run_reaper. repeat reaper_step; intros Hin; in_events Hin.
  apply osfind_handle in Hos. subst.
  split; [reflexivity|split; [reflexivity|split; [|reflexivity]]].
  exists contents. split; [|assumption]. now apply read_present.
Qed.

(** C6: when the termination signal fails, the reaper next tries to delete
    the PID file and returns a wrapped error: the failure of the signal
    when the file could be deleted, the failure of the deletion
    otherwise. *)
Theorem kill_failure_removes_pid_file (s : State Ext) (pid : Z) (killErr : error) :
  In (EvSys (SysKill pid) (Some killErr)) (events (killMountProcess C s)) ->
  exists (exe : string) (rm : option error) (pre : list Event) (err : error),
    psfind_result s pid = inl (Some exe) /\
    events (killMountProcess C s) =
      (pre ++ [EvSys (SysKill pid) (Some killErr);
               Glog "Kill failed with %v - removing probably stale pid..." [VErr killErr];
               EvSys (SysRemove (mountProcessPath C)) rm])%list /\
    outcome (killMountProcess C s) = Ret (Some err) /\
    match rm with
    | None =>
        err = errors_Wrap killErr ("Kill(" +:+ pretty pid +:+ "/" +:+ exe +:+ ")") /\
        errors_Cause err = errors_Cause killErr /\
        fs (final (killMountProcess C s)) !! mountProcessPath C = None
    | Some rmErr =>
        err = errors_Wrap rmErr "Removing likely stale unkillable pid" /\
        errors_Cause err = errors_Cause rmErr /\
        final (killMountProcess C s) = s
    end.
Proof.
  run_reaper. repeat reaper_step; intros Hin; in_events Hin.
  - apply osfind_handle in Hos. subst.
    eexists exe, (Some rmErr), [_; _; _; _; _; _; _; _], _.
    split; [eassumption|]. repeat (split; [reflexivity|]). reflexivity.
  - apply osfind_handle in Hos. subst.
    eexists exe, None, [_; _; _; _; _; _; _; _], _.
    split; [eassumption|]. repeat (split; [reflexivity|]).
    cbn. apply lookup_delete_eq.
Qed.

Lemma invocations_fixed (s : State Ext) :
  final (killMountProcess C s) = s -> forall n, invocations C n s = s.
Proof.
  intros H n. induction n as [|n IH]; simpl; [reflexivity|]. now rewrite H.
Qed.

(** C10: a PID file that exists but cannot be read, or does not hold a
    number, makes the reaper return a wrapped error; the state, the file
    included, is what it was, nothing was removed, and every later
    invocation does the same. *)
Theorem unreadable_pid_file_stays (s : State Ext) :
  is_Some (fs s !! mountProcessPath C) ->
  (exists e, read_result s (mountProcessPath C) = inr e) \/
  (exists contents e,
      read_result s (mountProcessPath C) = inl contents /\
      strconv_Atoi contents = inr e) ->
  ((exists e, read_result s (mountProcessPath C) = inr e /\
              outcome (killMountProcess C s) = Ret (Some (errors_Wrap e "ReadFile"))) \/
   (exists contents e,
       read_result s (mountProcessPath C) = inl contents /\
       strconv_Atoi contents = inr e /\
       outcome (killMountProcess C s) = Ret (Some (errors_Wrap e "error parsing pid")))) /\
  final (killMountProcess C s) = s /\
  forallb (fun e => negb (isRemoval e)) (events (killMountProcess C s)) = true /\
  forall n, killMountProcess C (invocations C n s) = killMountProcess C s.
Proof.
  intros Hex Hbad. apply stat_present in Hex.
  assert (Hfix : final (killMountProcess C s) = s).
  { revert Hex Hbad. run_reaper. intros Hex Hbad. rewrite Hex.
    destruct Hbad as [[e He]|(c & e & Hc & He)].
    - now rewrite He.
    - rewrite Hc. cbn [outcome final events app]. now rewrite He. }
  split; [|split; [exact Hfix|split]].
  - revert Hex Hbad. run_reaper. intros Hex Hbad. rewrite Hex.
    destruct Hbad as [[e He]|(c & e & Hc & He)].
    + left. exists e. now rewrite He.
    + right. exists c, e. rewrite Hc. cbn [outcome final events app]. now rewrite He.
  - revert Hex Hbad. run_reaper. intros Hex Hbad. rewrite Hex.
    destruct Hbad as [[e He]|(c & e & Hc & He)].
    + now rewrite He.
    + rewrite Hc. cbn [outcome final events app]. now rewrite He.
  - intros n. now rewrite invocations_fixed.
Qed.

(** C5, as the code has it: with a readable PID file that holds a pid for
    which the process table has no entry, the reaper sends no signal and
    tries to delete the file; it returns success when the file is gone and
    a wrapped error, with the file still there, when the deletion fails. *)
Theorem stale_pid_file_removal (s : State Ext) (contents : string) (pid : Z) :
  read_result s (mountProcessPath C) = inl contents ->
  strconv_Atoi contents = inl pid ->
  psfind_result s pid = inl None ->
  is_Some (fs s !! mountProcessPath C) /\
  events (killMountProcess C s) =
    [EvSys (SysStat (mountProcessPath C)) (stat_result s (mountProcessPath C));
     Glog "Found %s ..." [VPath (mountProcessPath C)];
     EvSys (SysReadFile (mountProcessPath C)) None;
     Glog "pidfile contents: %s" [VStr contents];
     EvSys (SysPsFindProcess pid) None;
     Glog "Stale pid: %d" [VInt pid];
     EvSys (SysRemove (mountProcessPath C)) (remove_result s (mountProcessPath C))] /\
  forallb (fun e => negb (isKill e)) (events (killMountProcess C s)) = true /\
  match remove_result s (mountProcessPath C) with
  | None =>
      outcome (killMountProcess C s) = Ret None /\
      fs (final (killMountProcess C s)) !! mountProcessPath C = None
  | Some rmErr =>
      outcome (killMountProcess C s) = Ret (Some (errors_Wrap rmErr "Removing stale pid")) /\
      final (killMountProcess C s) = s
  end.
Proof.
  intros Hread Hatoi Hps.
  assert (Hex : is_Some (fs s !! mountProcessPath C)).
  { apply read_present in Hread. rewrite Hread. eauto. }
  split; [exact Hex|]. apply stat_present in Hex.
  run_reaper. rewrite Hex, Hread. cbn [outcome final events app]. rewrite Hatoi, Hps.
  cbn [outcome final events app].
  destruct (remove_result s (mountProcessPath C)) as [rmErr|];
    cbn [outcome final events app err_of];
    (split; [reflexivity|split; [reflexivity|split; [reflexivity|]]]);
    [reflexivity|].
  cbn. apply lookup_delete_eq.
Qed.

(** *** Further behaviour of the reaper *)

Ltac sys_events H :=
  cbn [In] in H;
  repeat match type of H with
    | _ \/ _ => destruct H as [H|H]
    | False => destruct H
    | _ = _ => first [ discriminate H | cbn [err_of] in H; simplify_eq ]
    end.

Lemma stat_not_exist (s : State Ext) p :
  fs s !! p = None -> faults s (SysStat p) = None ->
  stat_result s p = Some (OsError ENOENT).
Proof. intros Hfs Hf. unfold stat_result, injected. now rewrite Hf, Hfs. Qed.

Lemma killMountProcess_absent (s : State Ext) :
  fs s !! mountProcessPath C = None ->
  faults s (SysStat (mountProcessPath C)) = None ->
  killMountProcess C s =
    mkRun (Ret None) s [EvSys (SysStat (mountProcessPath C)) (Some (OsError ENOENT))].
Proof.
  intros Hfs Hf. run_reaper. now rewrite (stat_not_exist s _ Hfs Hf).
Qed.

(** X1: with no PID file the reaper returns success at once: it probes
    the path and does nothing else, and the state is what it was. *)
Theorem reaper_absent_pid_file (s : State Ext) :
  fs s !! mountProcessPath C = None ->
  faults s (SysStat (mountProcessPath C)) = None ->
  killMountProcess C s =
    mkRun (Ret None) s [EvSys (SysStat (mountProcessPath C)) (Some (OsError ENOENT))] /\
  forall n, invocations C n s = s.
Proof.
  intros Hfs Hf. split; [now apply killMountProcess_absent|].
  apply invocations_fixed. now rewrite killMountProcess_absent.
Qed.

(** X2: only "not exist" counts as an absent PID file.  When the probe
    fails for another reason the reaper goes on to read the file; with no
    file there, it reports the read failure instead of success. *)
Theorem reaper_stat_failure_is_not_absence (s : State Ext) (f : fault) :
  faults s (SysStat (mountProcessPath C)) = Some f ->
  (exists rest,
      events (killMountProcess C s) =
        EvSys (SysStat (mountProcessPath C)) (Some (OsError (fault_errno f))) ::
        Glog "Found %s ..." [VPath (mountProcessPath C)] ::
        EvSys (SysReadFile (mountProcessPath C))
          (err_of (read_result s (mountProcessPath C))) :: rest) /\
  (fs s !! mountProcessPath C = None ->
   faults s (SysReadFile (mountProcessPath C)) = None ->
   outcome (killMountProcess C s) = Ret (Some (errors_Wrap (OsError ENOENT) "ReadFile")) /\
   final (killMountProcess C s) = s).
Proof.
  intros Hf.
  assert (Hstat : stat_result s (mountProcessPath C) = Some (OsError (fault_errno f))).
  { unfold stat_result, injected. now rewrite Hf. }
  assert (Hne : os_IsNotExist (stat_result s (mountProcessPath C)) = false).
  { rewrite Hstat. now destruct f. }
  split.
  - run_reaper. rewrite Hne, Hstat. cbn [outcome final events app].
    repeat reaper_step; eexists; reflexivity.
  - intros Hfs Hr.
    assert (Hread : read_result s (mountProcessPath C) = inr (OsError ENOENT)).
    { unfold read_result, injected. now rewrite Hr, Hfs. }
    run_reaper. rewrite Hne, Hread. now split.
Qed.

(** X3: when the lookup in the process table fails, the reaper returns
    that failure wrapped as "ps.FindProcess"; it has changed nothing, sent
    no signal and removed nothing. *)
Theorem reaper_process_lookup_failure (s : State Ext) (pid : Z) (e : error) :
  In (EvSys (SysPsFindProcess pid) (Some e)) (events (killMountProcess C s)) ->
  outcome (killMountProcess C s) = Ret (Some (errors_Wrap e "ps.FindProcess")) /\
  final (killMountProcess C s) = s /\
  forallb (fun ev => negb (isKill ev) && negb (isRemoval ev))
    (events (killMountProcess C s)) = true.
Proof.
  run_reaper. repeat reaper_step; intros Hin; sys_events Hin.
  all: repeat split.
Qed.

(** X4: when [os.FindProcess] fails for a live pid, the reaper returns
    that failure wrapped as "os.FindProcess"; no signal is sent and the
    PID file stays. *)
Theorem reaper_handle_failure (s : State Ext) (pid : Z) (e : error) :
  In (EvSys (SysOsFindProcess pid) (Some e)) (events (killMountProcess C s)) ->
  outcome (killMountProcess C s) = Ret (Some (errors_Wrap e "os.FindProcess")) /\
  final (killMountProcess C s) = s /\
  forallb (fun ev => negb (isKill ev) && negb (isRemoval ev))
    (events (killMountProcess C s)) = true.
Proof.
  run_reaper. repeat reaper_step; intros Hin; sys_events Hin.
  all: repeat split.
Qed.

Lemma reaper_faults (s : State Ext) :
  faults (final (killMountProcess C s)) = faults s /\
  ext (final (killMountProcess C s)) = ext s.
Proof. run_reaper. repeat reaper_step; now split. Qed.

(** X5: the reaper always returns to its caller, and the only things it
    can change are the PID file and the process it signalled: every other
    path keeps its entry, a process leaves the table only by a delivered
    signal, and the faults and the collaborators' state stay. *)
Theorem reaper_frame (s : State Ext) :
  (exists err, outcome (killMountProcess C s) = Ret err) /\
  faults (final (killMountProcess C s)) = faults s /\
  ext (final (killMountProcess C s)) = ext s /\
  (forall q, q <> mountProcessPath C ->
     fs (final (killMountProcess C s)) !! q = fs s !! q) /\
  (forall n, procs (final (killMountProcess C s)) !! n <> procs s !! n ->
     In (EvSys (SysKill n) None) (events (killMountProcess C s))).
Proof.
  run_reaper. repeat reaper_step.
  all: (split; [eexists; reflexivity|]); (split; [reflexivity|]); (split; [reflexivity|]).
  all: split; [intros q Hq; cbn; try reflexivity; now apply lookup_delete_ne|].
  all: intros n Hn; cbn in Hn; try congruence.
  destruct (decide (proc = n)) as [->|Hne].
  - apply osfind_handle in Hos. subst. cbn. tauto.
  - exfalso. apply Hn. now apply lookup_delete_ne.
Qed.

(** X6: the reaper signals at most one process, and only the process
    whose pid the PID file holds and which the process table lists. *)
Theorem reaper_signals_only_recorded_pid (s : State Ext) (pid : Z) (r : option error) :
  In (EvSys (SysKill pid) r) (events (killMountProcess C s)) ->
  (exists contents exe,
      read_result s (mountProcessPath C) = inl contents /\
      strconv_Atoi contents = inl pid /\
      psfind_result s pid = inl (Some exe)) /\
  r = kill_result s pid /\
  length (filter (fun e => isKill e = true) (events (killMountProcess C s))) = 1%nat.
Proof.
  run_reaper. repeat reaper_step; intros Hin; sys_events Hin.
  all: apply osfind_handle in Hos; subst.
  all: (split; [eexists _, _; repeat split; eassumption|]); split; [congruence|reflexivity].
Qed.

(** X7: a live process under the recorded pid is signalled whatever its
    executable is: the reaper logs the name and does not compare it. *)
Theorem reaper_signals_any_live_process
    (s : State Ext) (contents : string) (pid : Z) (exe : string) :
  read_result s (mountProcessPath C) = inl contents ->
  strconv_Atoi contents = inl pid ->
  psfind_result s pid = inl (Some exe) ->
  faults s (SysOsFindProcess pid) = None ->
  exists pre post,
    events (killMountProcess C s) =
      (pre ++ [Glog "Found process %d: %s" [VInt pid; VStr exe];
               EvSys (SysOsFindProcess pid) None;
               Glog "Killing pid %d ..." [VInt pid];
               EvSys (SysKill pid) (kill_result s pid)] ++ post)%list.
Proof.
  intros Hread Hatoi Hps Hos.
  assert (Hex : os_IsNotExist (stat_result s (mountProcessPath C)) = false).
  { apply stat_present. apply read_present in Hread. rewrite Hread. eauto. }
  assert (Hproc : osfind_result s pid = inl pid).
  { unfold osfind_result, injected. now rewrite Hos. }
  run_reaper. rewrite Hex, Hread. cbn [outcome final events app].
  rewrite Hatoi, Hps. cbn [outcome final events app]. rewrite Hproc.
  cbn [outcome final events app].
  destruct (kill_result s pid) as [killErr|]; cbn [outcome final events app].
  - destruct (remove_result s (mountProcessPath C)); cbn [outcome final events app];
      now eexists [_; _; _; _; _], [_; _].
  - now eexists [_; _; _; _; _], [].
Qed.

(** X8: once the reaper has removed the PID file, the next invocation
    finds nothing to do: it probes the path and returns success. *)
Theorem reaper_rerun_after_removal (s : State Ext) :
  In (EvSys (SysRemove (mountProcessPath C)) None) (events (killMountProcess C s)) ->
  faults s (SysStat (mountProcessPath C)) = None ->
  fs (final (killMountProcess C s)) !! mountProcessPath C = None /\
  killMountProcess C (final (killMountProcess C s)) =
    mkRun (Ret None) (final (killMountProcess C s))
      [EvSys (SysStat (mountProcessPath C)) (Some (OsError ENOENT))].
Proof.
  intros Hin Hf.
  assert (Hgone : fs (final (killMountProcess C s)) !! mountProcessPath C = None).
  { revert Hin. run_reaper. repeat reaper_step; intros Hin; sys_events Hin.
    all: cbn; apply lookup_delete_eq. }
  split; [exact Hgone|]. apply killMountProcess_absent; [exact Hgone|].
  destruct (reaper_faults s) as [-> _]. exact Hf.
Qed.

(** X9: the reaper returns success in three cases only: the PID file is
    absent, a stale PID file has been removed, or the signal has been
    delivered. *)
Theorem reaper_success_causes (s : State Ext) :
  outcome (killMountProcess C s) = Ret None ->
  os_IsNotExist (stat_result s (mountProcessPath C)) = true \/
  (exists pid,
      psfind_result s pid = inl None /\
      In (EvSys (SysRemove (mountProcessPath C)) None) (events (killMountProcess C s))) \/
  (exists pid, In (EvSys (SysKill pid) None) (events (killMountProcess C s))).
Proof.
  run_reaper. repeat reaper_step; intros Hout; try discriminate Hout.
  all: first
    [ now left
    | right; left; eexists; split; [eassumption|cbn; tauto]
    | right; right; eexists; cbn; tauto ].
Qed.

End Reaper.

(** ** Stepping through a run *)

Section Steps.

Context {Ext API Bootstrapper : Type}.
Variable C : Collaborators Ext API Bootstrapper.

Lemma bind_call {B} c f (k : option error -> M Ext B) s :
  bind (call c f) k s = prepend [EvCall c (f s).1] (k (f s).1 (f s).2).
Proof. unfold bind, call, prepend. destruct (f s) as [err s']. simpl. now destruct (k err s'). Qed.

Lemma bind_call_val {A B} c (f : State Ext -> (A + error) * State Ext)
    (k : A + error -> M Ext B) s :
  bind (call_val c f) k s = prepend [EvCall c (err_of (f s).1)] (k (f s).1 (f s).2).
Proof.
  unfold bind, call_val, prepend. destruct (f s) as [r s']. simpl. now destruct (k r s').
Qed.

Lemma bind_ret {A B} (a : A) (k : A -> M Ext B) s : bind (ret a) k s = k a s.
Proof. unfold bind, ret. now destruct (k a s). Qed.

Lemma events_bind {A B} (m : M Ext A) (k : A -> M Ext B) s :
  events (bind m k s) =
  (events (m s) ++
   match outcome (m s) with
   | Ret a => events (k a (final (m s)))
   | Exited _ => []
   end)%list.
Proof.
  unfold bind. destruct (m s) as [[a|status] s' evs]; simpl.
  - now destruct (k a s').
  - now rewrite app_nil_r.
Qed.

Lemma outcome_bind {A B} (m : M Ext A) (k : A -> M Ext B) s :
  outcome (bind m k s) =
  match outcome (m s) with
  | Ret a => outcome (k a (final (m s)))
  | Exited status => Exited status
  end.
Proof.
  unfold bind. destruct (m s) as [[a|status] s' evs]; simpl; [|reflexivity].
  now destruct (k a s').
Qed.

(** *** What a computation emits *)

Lemma emits_ret {A} P (a : A) : emits (Ext:=Ext) P (ret a).
Proof. intros s. constructor. Qed.

Lemma emits_get {A} P (f : State Ext -> A) : emits P (get f).
Proof. intros s. constructor. Qed.

Lemma emits_emit P e : P e -> emits (Ext:=Ext) P (emit e).
Proof. intros H s. simpl. auto. Qed.

Lemma emits_exit {A} P status : emits (Ext:=Ext) P (@os_Exit Ext A status).
Proof. intros s. constructor. Qed.

Lemma emits_bind {A B} P (m : M Ext A) (k : A -> M Ext B) :
  emits P m -> (forall a, emits P (k a)) -> emits P (bind m k).
Proof.
  intros Hm Hk s. rewrite events_bind. apply Forall_app. split; [apply Hm|].
  destruct (outcome (m s)); [apply Hk|constructor].
Qed.

Lemma emits_exit_WithError {A} P msg err :
  P (EvFatal msg err) -> emits P (@exit_WithError _ _ _ C A msg err).
Proof. intros H s. simpl. auto. Qed.

Lemma emits_call P c f : (forall err, P (EvCall c err)) -> emits (Ext:=Ext) P (call c f).
Proof. intros H s. unfold call. destruct (f s). simpl. auto. Qed.

Lemma emits_call_val {A} P c (f : State Ext -> (A + error) * State Ext) :
  (forall err, P (EvCall c err)) -> emits P (call_val c f).
Proof. intros H s. unfold call_val. destruct (f s). simpl. auto. Qed.

Lemma emits_call_ P c f : P (EvCall c None) -> emits (Ext:=Ext) P (call_ c f).
Proof. intros H s. simpl. auto. Qed.

Lemma emits_sys {A} P c (m : M Ext A) :
  (forall s, exists r, events (m s) = [EvSys c r]) ->
  (forall r, P (EvSys c r)) -> emits P m.
Proof. intros Hm H s. destruct (Hm s) as [r ->]. auto. Qed.

Lemma emits_os_Stat P p : (forall r, P (EvSys (SysStat p) r)) -> emits (Ext:=Ext) P (os_Stat p).
Proof. apply emits_sys. intros s. eexists. reflexivity. Qed.

Lemma emits_ioutil_ReadFile P p :
  (forall r, P (EvSys (SysReadFile p) r)) -> emits (Ext:=Ext) P (ioutil_ReadFile p).
Proof. apply emits_sys. intros s. eexists. reflexivity. Qed.

Lemma emits_os_Remove P p :
  (forall r, P (EvSys (SysRemove p) r)) -> emits (Ext:=Ext) P (os_Remove p).
Proof. apply emits_sys. intros s. eexists. reflexivity. Qed.

Lemma emits_os_RemoveAll P p :
  (forall r, P (EvSys (SysRemoveAll p) r)) -> emits (Ext:=Ext) P (os_RemoveAll p).
Proof. apply emits_sys. intros s. eexists. reflexivity. Qed.

Lemma emits_ps_FindProcess P pid :
  (forall r, P (EvSys (SysPsFindProcess pid) r)) -> emits (Ext:=Ext) P (ps_FindProcess pid).
Proof. apply emits_sys. intros s. eexists. reflexivity. Qed.

Lemma emits_os_FindProcess P pid :
  (forall r, P (EvSys (SysOsFindProcess pid) r)) -> emits (Ext:=Ext) P (os_FindProcess pid).
Proof. apply emits_sys. intros s. eexists. reflexivity. Qed.

Lemma emits_proc_Kill P pid :
  (forall r, P (EvSys (SysKill pid) r)) -> emits (Ext:=Ext) P (proc_Kill pid).
Proof. apply emits_sys. intros s. eexists. reflexivity. Qed.

Lemma emits_forEach {A} P (xs : list A) (body : A -> M Ext unit) :
  (forall x, emits P (body x)) -> emits P (forEach xs body).
Proof.
  intros H. induction xs as [|x xs IH]; simpl.
  - apply emits_ret.
  - apply emits_bind; [apply H|intros _; apply IH].
Qed.

(** *** What returns to its caller *)

Lemma returns_ret {A} (a : A) : returns (Ext:=Ext) (ret a).
Proof. intros s. now exists a. Qed.

Lemma returns_emit e : returns (Ext:=Ext) (emit e).
Proof. intros s. now exists tt. Qed.

Lemma returns_bind {A B} (m : M Ext A) (k : A -> M Ext B) :
  returns m -> (forall a, returns (k a)) -> returns (bind m k).
Proof.
  intros Hm Hk s. rewrite outcome_bind. destruct (Hm s) as [a ->]. apply Hk.
Qed.

Lemma returns_call c f : returns (Ext:=Ext) (call c f).
Proof. intros s. unfold call. destruct (f s). simpl. eauto. Qed.

Lemma returns_call_val {A} c (f : State Ext -> (A + error) * State Ext) :
  returns (call_val c f).
Proof. intros s. unfold call_val. destruct (f s). simpl. eauto. Qed.

End Steps.

Ltac emits_step :=
  match goal with
  | |- emits _ (bind _ _) => apply emits_bind; [|intro]
  | |- emits _ (ret _) => apply emits_ret
  | |- emits _ (get _) => apply emits_get
  | |- emits _ (emit _) => apply emits_emit
  | |- emits _ (os_Exit _) => apply emits_exit
  | |- emits _ (exit_WithError _ _ _) => apply emits_exit_WithError
  | |- emits _ (call _ _) => apply emits_call; intro
  | |- emits _ (call_val _ _) => apply emits_call_val; intro
  | |- emits _ (call_ _ _) => apply emits_call_
  | |- emits _ (os_Stat _) => apply emits_os_Stat; intro
  | |- emits _ (ioutil_ReadFile _) => apply emits_ioutil_ReadFile; intro
  | |- emits _ (os_Remove _) => apply emits_os_Remove; intro
  | |- emits _ (os_RemoveAll _) => apply emits_os_RemoveAll; intro
  | |- emits _ (ps_FindProcess _) => apply emits_ps_FindProcess; intro
  | |- emits _ (os_FindProcess _) => apply emits_os_FindProcess; intro
  | |- emits _ (proc_Kill _) => apply emits_proc_Kill; intro
  | |- emits _ (match ?x with _ => _ end) => destruct x
  end.

Ltac returns_step :=
  match goal with
  | |- returns (bind _ _) => apply returns_bind; [|intro]
  | |- returns (ret _) => apply returns_ret
  | |- returns (emit _) => apply returns_emit
  | |- returns (call _ _) => apply returns_call
  | |- returns (call_val _ _) => apply returns_call_val
  | |- returns (os_Stat _) => intros ?; eexists; reflexivity
  | |- returns (ioutil_ReadFile _) => intros ?; eexists; reflexivity
  | |- returns (os_Remove _) => intros ?; eexists; reflexivity
  | |- returns (ps_FindProcess _) => intros ?; eexists; reflexivity
  | |- returns (os_FindProcess _) => intros ?; eexists; reflexivity
  | |- returns (proc_Kill _) => intros ?; eexists; reflexivity
  | |- returns (match ?x with _ => _ end) => destruct x
  end.

Section Teardown.

Context {Ext API Bootstrapper : Type}.
Variable C : Collaborators Ext API Bootstrapper.

Lemma killMountProcess_returns : returns (killMountProcess C).
Proof. unfold killMountProcess. repeat returns_step. Qed.

Lemma uninstallKubernetes_returns api kc bs : returns (uninstallKubernetes C api kc bs).
Proof. unfold uninstallKubernetes. repeat returns_step. Qed.

(** Events of the reaper: log lines and system calls on the PID file and
    the process table. *)
Lemma killMountProcess_emits (P : Event -> Prop) :
  (forall f a, P (Glog f a)) ->
  (forall c r, (forall p, c <> SysRemoveAll p) -> P (EvSys c r)) ->
  emits P (killMountProcess C).
Proof.
  intros Hlog Hsys. unfold killMountProcess.
  repeat emits_step; try apply Hlog; try (apply Hsys; intros; discriminate).
Qed.

(** *** Removing the directories of a profile *)

Lemma stat_absent (s : State Ext) dir :
  fs s !! dir = None -> exists e, stat_result s dir = Some e.
Proof.
  intros H. unfold stat_result. destruct (injected s (SysStat dir)); [eauto|].
  rewrite H. eauto.
Qed.

Lemma removeDirectory_absent (s : State Ext) dir :
  fs s !! dir = None ->
  removeDirectory C dir s = mkRun (Ret tt) s [EvSys (SysStat dir) (stat_result s dir)].
Proof.
  intros H. destruct (stat_absent s dir H) as [e He].
  unfold removeDirectory, bind, os_Stat. now rewrite He.
Qed.

Lemma removeDirectory_frame (s : State Ext) dir other :
  fs s !! other = None ->
  fs (final (removeDirectory C dir s)) !! other = None /\
  faults (final (removeDirectory C dir s)) = faults s.
Proof.
  intros H. unfold removeDirectory, bind, os_Stat, os_RemoveAll, emit.
  destruct (stat_result s dir); cbn [outcome final events]; [now split|].
  destruct (removeall_result s dir); cbn [outcome final events]; [now split|].
  split; [|reflexivity]. cbn. unfold remove_all. now apply map_lookup_filter_None_2; left.
Qed.

Lemma stat_result_frame (s s' : State Ext) dir :
  fs s !! dir = None -> fs s' !! dir = None -> faults s' = faults s ->
  stat_result s' dir = stat_result s dir.
Proof. intros H H' Hf. unfold stat_result, injected. now rewrite Hf, H, H'. Qed.

(** C8: a directory that is already absent is passed over in silence: the
    block returns with the state as it was and nothing but the probe among
    its events; with both directories absent deleteProfileDirectory as a
    whole does so, and what follows it in the teardown runs. *)
Theorem absent_directory_is_silent_noop (s : State Ext) (profile : string) :
  (forall dir,
      dir = machineDir C profile \/ dir = profileDir C profile ->
      fs s !! dir = None ->
      removeDirectory C dir s =
        mkRun (Ret tt) s [EvSys (SysStat dir) (stat_result s dir)]) /\
  (fs s !! machineDir C profile = None ->
     deleteProfileDirectory C profile s =
       prepend [EvSys (SysStat (machineDir C profile)) (stat_result s (machineDir C profile))]
         (removeDirectory C (profileDir C profile) s)) /\
  (fs s !! profileDir C profile = None ->
     let r := removeDirectory C (machineDir C profile) s in
     deleteProfileDirectory C profile s =
       match outcome r with
       | Ret _ =>
           mkRun (Ret tt) (final r)
             (events r ++
              [EvSys (SysStat (profileDir C profile)) (stat_result s (profileDir C profile))])
       | Exited status => mkRun (Exited status) (final r) (events r)
       end) /\
  (fs s !! machineDir C profile = None ->
   fs s !! profileDir C profile = None ->
   forall B (k : unit -> M Ext B),
     bind (deleteProfileDirectory C profile) k s =
       prepend
         [EvSys (SysStat (machineDir C profile)) (stat_result s (machineDir C profile));
          EvSys (SysStat (profileDir C profile)) (stat_result s (profileDir C profile))]
         (k tt s)).
Proof.
  split; [|split; [|split]].
  - intros dir _ H. now apply removeDirectory_absent.
  - intros H. unfold deleteProfileDirectory.
    rewrite (bind_returned _ _ s tt); now rewrite removeDirectory_absent.
  - intros H r. unfold deleteProfileDirectory.
    destruct (removeDirectory_frame s (machineDir C profile) _ H) as [Hfs Hfaults].
    fold r in Hfs, Hfaults.
    destruct (outcome r) as [[]|status] eqn:Hr.
    + rewrite (bind_returned _ _ s tt) by exact Hr. fold r.
      rewrite removeDirectory_absent by exact Hfs.
      now rewrite (stat_result_frame s (final r)).
    + now rewrite (bind_exited _ _ s status).
  - intros Hm Hp B k. unfold deleteProfileDirectory.
    rewrite (bind_returned _ _ s tt).
    + rewrite (bind_returned _ _ s tt) by now rewrite removeDirectory_absent.
      rewrite !removeDirectory_absent by assumption. reflexivity.
    + rewrite (bind_returned _ _ s tt) by now rewrite removeDirectory_absent.
      now rewrite !removeDirectory_absent by assumption.
Qed.

(** *** runDelete *)

Lemma forEach_emit {A} (xs : list A) (f : A -> Event) (s : State Ext) :
  forEach xs (fun x => emit (f x)) s = mkRun (Ret tt) s (map f xs).
Proof.
  induction xs as [|x xs IH]; simpl; [reflexivity|].
  rewrite bind_emit, IH. reflexivity.
Qed.

Lemma bind_listProfiles {B} (k : list Profile * option error -> M Ext B) s vs ivs err :
  pkg_config_ListProfiles C s = (vs, ivs, err) ->
  bind (listProfiles C) k s = prepend [EvCall CListProfiles err] (k (vs, err) s).
Proof.
  intros H. unfold bind, listProfiles, prepend. rewrite H. now destruct (k (vs, err) s).
Qed.

(** C1: with purge requested, a successful enumeration of more than one
    profile and no force, runDelete prints the header, every profile name
    and the instruction, and returns; the state is what it was, so the
    enumeration gives the same list afterwards. *)
Theorem guard_performs_no_mutation (s : State Ext) (validProfiles invalid : list Profile) :
  pkg_config_ListProfiles C s = (validProfiles, invalid, None) ->
  viper_GetBool C purge = true ->
  (1 < length validProfiles)%nat ->
  viper_GetBool C forcedelete = false ->
  runDelete C [] s =
    mkRun (Ret tt) s
      ([EvCall CListProfiles None] ++ flagLog C ++ guardOutput validProfiles) /\
  final (runDelete C [] s) = s /\
  pkg_config_ListProfiles C (final (runDelete C [] s)) = (validProfiles, invalid, None) /\
  Forall (fun p =>
            In (OutT Notice "    - {{.profileName}}" [("profileName", VStr (Name p))])
              (events (runDelete C [] s))) validProfiles.
Proof.
  intros Hlist Hpurge Hlen Hforce.
  assert (Hguard : guard C validProfiles None = true).
  { unfold guard. rewrite Hpurge, Hforce. simpl.
    rewrite andb_true_r. apply Z.ltb_lt. lia. }
  assert (Hrun : runDelete C [] s =
                 mkRun (Ret tt) s
                   ([EvCall CListProfiles None] ++ flagLog C ++ guardOutput validProfiles)).
  { unfold runDelete. change (0 <? Z.of_nat (length (@nil string))) with false.
    cbv iota. rewrite bind_ret. rewrite (bind_listProfiles _ s _ _ _ Hlist).
    rewrite !bind_emit. rewrite Hguard. rewrite bind_emit.
    rewrite (bind_returned _ _ s tt) by now rewrite forEach_emit.
    rewrite forEach_emit. reflexivity. }
  rewrite Hrun. cbn [final events]. repeat split; try assumption.
  apply List.Forall_forall. intros p Hp. unfold guardOutput.
  rewrite !in_app_iff. right. right. right. left. apply in_map_iff. now exists p.
Qed.

(** Positional arguments are a usage error; nothing else happens. *)
Lemma runDelete_usage (s : State Ext) (arg : string) (args : list string) :
  runDelete C (arg :: args) s = mkRun (Exited (exit_BadUsage C)) s [EvUsage "Usage: minikube delete"].
Proof.
  unfold runDelete.
  replace (0 <? Z.of_nat (length (arg :: args))) with true
    by (symmetry; apply Z.ltb_lt; simpl length; lia).
  reflexivity.
Qed.

Lemma runDelete_unguarded (s : State Ext) vs ivs err :
  pkg_config_ListProfiles C s = (vs, ivs, err) ->
  guard C vs err = false ->
  runDelete C [] s =
    prepend ([EvCall CListProfiles err] ++ flagLog C) (teardownAndPurge C vs s).
Proof.
  intros Hlist Hguard. unfold runDelete.
  change (0 <? Z.of_nat (length (@nil string))) with false. cbv iota.
  rewrite bind_ret. rewrite (bind_listProfiles _ s _ _ _ Hlist).
  rewrite !bind_emit. rewrite Hguard. rewrite !prepend_prepend. reflexivity.
Qed.

Lemma purgeRoot_run (s : State Ext) :
  purgeRoot C s =
    match removeall_result s (localpath_MiniPath C) with
    | None =>
        mkRun (Ret tt) (set_fs s (remove_all (fs s) (localpath_MiniPath C)))
          (purgeEvents C None)
    | Some e =>
        mkRun (Exited (exit_status C "unable to delete minikube config folder" e)) s
          (purgeEvents C (Some e))
    end.
Proof.
  unfold purgeRoot, bind, emit, os_RemoveAll, purgeEvents.
  cbn [outcome final events]. now destruct (removeall_result s (localpath_MiniPath C)).
Qed.

Lemma remove_all_below (m : gmap path node) (root p : path) :
  root `prefix_of` p -> remove_all m root !! p = None.
Proof.
  intros H. unfold remove_all. apply map_lookup_filter_None_2. right.
  intros x _ Hn. now apply Hn.
Qed.

Lemma join_neq (dir : path) (x : string) (xs : list string) :
  filepath_Join dir (x :: xs) <> dir.
Proof.
  unfold filepath_Join. intros H. apply (f_equal (@length string)) in H.
  rewrite length_app in H. simpl in H. lia.
Qed.

Ltac not_root_removal :=
  let r := fresh in let H := fresh in
  intros [r H]; first [discriminate H | injection H as H _; now apply join_neq in H].

Lemma deleteProfile_keeps_root (profile : string) :
  emits (fun e => ~ isRootRemoval C e) (deleteProfile C profile).
Proof.
  unfold deleteProfile, uninstallKubernetes, deleteProfileDirectory, removeDirectory,
    machineDir, profileDir.
  repeat first
    [ apply killMountProcess_emits;
      [ intros; not_root_removal
      | let r := fresh in let H := fresh in
        intros ? ? Hc [r H]; injection H as H _; now apply Hc in H ]
    | emits_step ];
    try not_root_removal.
Qed.

Lemma deleteProfile_sets (profile : string) (s : State Ext) a :
  outcome (deleteProfile C profile s) = Ret a ->
  In (EvCall (CSet (pkg_config_MachineProfile C) profile) None)
    (events (deleteProfile C profile s)).
Proof.
  unfold deleteProfile. rewrite bind_emit, bind_call.
  destruct (cmdcfg_Set C (pkg_config_MachineProfile C) profile s) as [[e|] s1];
    cbn [fst snd prepend outcome events]; [discriminate|].
  intros _. right. now left.
Qed.

Lemma teardownAll_sets (vs : list Profile) (s : State Ext) a :
  outcome (teardownAll C vs s) = Ret a ->
  Forall (fun p =>
            In (EvCall (CSet (pkg_config_MachineProfile C) (Name p)) None)
              (events (teardownAll C vs s))) vs.
Proof.
  revert s. induction vs as [|v vs IH]; intros s; [constructor|].
  unfold teardownAll. cbn [forEach]. rewrite outcome_bind, events_bind.
  destruct (outcome (deleteProfile C (Name v) s)) as [[]|status] eqn:Hv; [|discriminate].
  intros H. constructor.
  - apply in_or_app. left. now apply (deleteProfile_sets _ _ tt).
  - apply IH in H. eapply List.Forall_impl; [|exact H].
    intros p Hp. apply in_or_app. now right.
Qed.

(** C4, as the code has it: an error of the enumeration does not terminate
    the run; the guard is skipped, and the run goes on with the teardown of
    the profiles that were returned and with the purge when it was asked
    for.  With no profile returned and no purge it returns having done
    nothing. *)
Theorem enumeration_error_skips_guard (s : State Ext) (vs ivs : list Profile) (e : error) :
  pkg_config_ListProfiles C s = (vs, ivs, Some e) ->
  guard C vs (Some e) = false /\
  runDelete C [] s =
    prepend ([EvCall CListProfiles (Some e)] ++ flagLog C) (teardownAndPurge C vs s) /\
  outcome (runDelete C [] s) = outcome (teardownAndPurge C vs s) /\
  (vs = [] -> viper_GetBool C purge = false ->
   outcome (runDelete C [] s) = Ret tt /\ final (runDelete C [] s) = s).
Proof.
  intros Hlist. assert (Hguard : guard C vs (Some e) = false) by reflexivity.
  rewrite (runDelete_unguarded s vs ivs (Some e) Hlist Hguard).
  split; [exact Hguard|]. split; [reflexivity|]. split; [reflexivity|].
  intros -> Hpurge. unfold teardownAndPurge, teardownAll. cbn [forEach].
  rewrite bind_ret, Hpurge. now split.
Qed.

(** C9, as the code has it: when purge is requested and the guard does not
    fire, the configuration root is removed only once the teardown of every
    enumerated profile has returned: no removal of the root happens before
    or between the teardowns, and a teardown that terminates the process
    leaves the root in place.  After the teardowns the root is removed with
    everything below it, or the process terminates when the removal
    fails. *)
Theorem purge_follows_every_teardown (s : State Ext) (vs ivs : list Profile)
    (err : option error) :
  pkg_config_ListProfiles C s = (vs, ivs, err) ->
  viper_GetBool C purge = true ->
  guard C vs err = false ->
  let l := teardownAll C vs s in
  let r := runDelete C [] s in
  let root := localpath_MiniPath C in
  Forall (fun e => ~ isRootRemoval C e) ([EvCall CListProfiles err] ++ flagLog C ++ events l) /\
  match outcome l with
  | Exited status =>
      r = mkRun (Exited status) (final l) ([EvCall CListProfiles err] ++ flagLog C ++ events l)
  | Ret _ =>
      events r =
        ([EvCall CListProfiles err] ++ flagLog C ++ events l ++
         purgeEvents C (removeall_result (final l) root))%list /\
      Forall (fun p =>
                In (EvCall (CSet (pkg_config_MachineProfile C) (Name p)) None) (events l)) vs /\
      match removeall_result (final l) root with
      | None =>
          outcome r = Ret tt /\
          forall p, root `prefix_of` p -> fs (final r) !! p = None
      | Some e =>
          outcome r = Exited (exit_status C "unable to delete minikube config folder" e)
      end
  end.
Proof.
  intros Hlist Hpurge Hguard l r root. split.
  - constructor; [not_root_removal|]. constructor; [not_root_removal|].
    constructor; [not_root_removal|].
    apply emits_forEach. intros p. apply deleteProfile_keeps_root.
  - subst r. rewrite (runDelete_unguarded s vs ivs err Hlist Hguard).
    unfold teardownAndPurge. rewrite Hpurge. fold l.
    destruct (outcome l) as [[]|status] eqn:Hl.
    + rewrite (bind_returned _ _ s tt) by exact Hl. fold l.
      rewrite purgeRoot_run. fold root. split; [|split].
      * now destruct (removeall_result (final l) root).
      * now apply (teardownAll_sets vs s tt).
      * destruct (removeall_result (final l) root); cbn [prepend outcome final];
          [reflexivity|]. split; [reflexivity|].
        intros p Hp. cbn. now apply remove_all_below.
    + rewrite (bind_exited _ _ s status) by exact Hl. fold l.
      reflexivity.
Qed.

(** *** deleteProfile *)

Lemma uninstallKubernetes_calls api kc bs (s : State Ext) :
  In (EvCall (CGetClusterBootstrapper bs) (err_of (getClusterBootstrapper C api bs s).1))
    (events (uninstallKubernetes C api kc bs s)) /\
  forall b,
    (getClusterBootstrapper C api bs s).1 = inl b ->
    In (EvCall (CDeleteCluster kc)
          (bootstrapper_DeleteCluster C b kc (getClusterBootstrapper C api bs s).2).1)
      (events (uninstallKubernetes C api kc bs s)).
Proof.
  unfold uninstallKubernetes. rewrite bind_emit, bind_call_val.
  destruct (getClusterBootstrapper C api bs s) as [[b|e] s']; cbn [fst snd].
  - rewrite bind_call. cbn [prepend events]. split.
    + right. now left.
    + intros b' [= <-]. right. right. now left.
  - split; [right; now left|]. intros b' [=].
Qed.

(** C3, as the code has it: for a profile whose configuration loads and
    names the driver "none", deleteProfile runs uninstallKubernetes, which
    resolves the bootstrapper and, when that succeeds, calls its uninstall
    operation; after that, and after the reaper, it requests the deletion
    of the host all the same. *)
Theorem none_driver_uninstalls_then_deletes_host
    (profile : string) (s s1 s2 s3 : State Ext) (api : API) (cc : Config) :
  cmdcfg_Set C (pkg_config_MachineProfile C) profile s = (None, s1) ->
  machine_NewAPIClient C s1 = (inl api, s2) ->
  pkg_config_Load C s2 = (inl cc, s3) ->
  VMDriver (MachineConfig_ cc) = constants_DriverNone C ->
  let bs := viper_GetString C (cmdcfg_Bootstrapper C) in
  let kc := KubernetesConfig_ cc in
  let u := uninstallKubernetes C api kc bs s3 in
  let k := killMountProcess C (final u) in
  (exists hostErr post,
      events (deleteProfile C profile s) =
        ([Glog "Setting current profile to -- %v" [VStr profile];
          EvCall (CSet (pkg_config_MachineProfile C) profile) None;
          Glog "Successfully set profile to -- %v" [VStr profile];
          EvCall CNewAPIClient None;
          EvCall CLoad None] ++
         events u ++
         events k ++
         match outcome k with
         | Ret (Some err) =>
             [OutT FailureType "Failed to kill mount process: {{.error}}"
                [("error", VErr err)]]
         | _ => []
         end ++
         [EvCall CDeleteHost hostErr] ++ post)%list) /\
  In (EvCall (CGetClusterBootstrapper bs) (err_of (getClusterBootstrapper C api bs s3).1))
    (events u) /\
  (forall b,
      (getClusterBootstrapper C api bs s3).1 = inl b ->
      In (EvCall (CDeleteCluster kc)
            (bootstrapper_DeleteCluster C b kc (getClusterBootstrapper C api bs s3).2).1)
        (events u)).
Proof.
  intros Hset Hnew Hload Hdriver bs kc u k.
  split; [|apply uninstallKubernetes_calls].
  unfold deleteProfile.
  rewrite bind_emit, bind_call, Hset. cbn [fst snd].
  rewrite bind_emit, bind_call_val, Hnew. cbn [fst snd].
  rewrite bind_call_val, Hload. cbn [fst snd err_of]. rewrite bind_ret.
  rewrite Hdriver, String.eqb_refl. fold bs kc.
  destruct (uninstallKubernetes_returns api kc bs s3) as [[] Hu].
  rewrite (bind_returned _ _ s3 tt Hu). fold u.
  destruct (killMountProcess_returns (final u)) as [kerr Hk].
  rewrite (bind_returned _ _ (final u) kerr Hk). unfold k. rewrite Hk.
  destruct kerr as [kerr|]; [rewrite bind_emit|rewrite bind_ret];
    rewrite bind_call; cbn [prepend events app]; eexists _, _; reflexivity.
Qed.

Lemma bind_through {A B} (m : M Ext A) (k : A -> M Ext B)
    (P : Event -> Prop) (Q : Run Ext B -> Prop) (e : Event) (s : State Ext) :
  emits P m -> ~ P e ->
  (forall evs r, Forall P evs -> Q r -> Q (prepend evs r)) ->
  (forall a s', In e (events (k a s')) -> Q (k a s')) ->
  In e (events (bind m k s)) -> Q (bind m k s).
Proof.
  intros Hm He Hstable Hk Hin. specialize (Hm s).
  assert (Hnot : ~ In e (events (m s))).
  { intros Hin'. apply He. rewrite List.Forall_forall in Hm. now apply Hm. }
  rewrite events_bind in Hin. apply in_app_or in Hin. destruct Hin as [Hin|Hin]; [easy|].
  destruct (outcome (m s)) as [a|status] eqn:Hout; [|destruct Hin].
  rewrite (bind_returned _ _ s a Hout). apply Hstable; [exact Hm|]. now apply Hk.
Qed.

(** C2: when the deletion of the metadata entry fails, the process
    terminates there: with status zero when the entry was not found, with
    the status of [exit.WithError], which is not zero, for any other
    failure.  The credentials file and the active-profile pointer are not
    touched, and the last event is the message of the exit. *)
Theorem metadata_failure_terminates
    (profile : string) (s : State Ext) (name : string) (err : error) :
  exits_nonzero C ->
  In (EvCall (CDeleteProfile name) (Some err)) (events (deleteProfile C profile s)) ->
  let r := deleteProfile C profile s in
  name = profile /\
  outcome r =
    Exited (if os_IsNotExist (Some err) then 0
            else exit_status C "Failed to remove profile" err) /\
  (os_IsNotExist (Some err) = true -> outcome r = Exited 0) /\
  (os_IsNotExist (Some err) = false ->
   exists status, outcome r = Exited status /\ status <> 0) /\
  Forall (fun e => isLaterStep e = false) (events r) /\
  exists pre,
    events r =
      (pre ++
       [EvCall (CDeleteProfile profile) (Some err);
        if os_IsNotExist (Some err)
        then OutT Meh (quoted "{{.name}}" +:+ " profile does not exist")
               [("name", VStr profile)]
        else EvFatal "Failed to remove profile" err])%list.
Proof.
  intros [_ Hnz] Hin r.
  set (P := fun e : Event => isMetadataCall e = false /\ isLaterStep e = false).
  set (Q := fun r : Run Ext unit =>
    name = profile /\
    outcome r =
      Exited (if os_IsNotExist (Some err) then 0
              else exit_status C "Failed to remove profile" err) /\
    Forall (fun e => isLaterStep e = false) (events r) /\
    exists pre,
      events r =
        (pre ++
         [EvCall (CDeleteProfile profile) (Some err);
          if os_IsNotExist (Some err)
          then OutT Meh (quoted "{{.name}}" +:+ " profile does not exist")
                 [("name", VStr profile)]
          else EvFatal "Failed to remove profile" err])%list).
  assert (Hstable : forall evs r, Forall P evs -> Q r -> Q (prepend evs r)).
  { intros evs r0 Hevs (Hname & Hout & Hlater & pre & Hpre).
    split; [exact Hname|]. split; [exact Hout|]. split.
    - cbn [prepend events]. apply Forall_app. split; [|exact Hlater].
      eapply List.Forall_impl; [|exact Hevs]. now intros e [_ He].
    - exists (evs ++ pre)%list. cbn [prepend events]. now rewrite Hpre, app_assoc. }
  assert (HQ : Q r).
  { revert Hin. subst r.
    unfold deleteProfile, uninstallKubernetes, deleteProfileDirectory, removeDirectory.
    repeat match goal with
      | |- In _ (events (bind (call (CDeleteProfile _) _) _ _)) -> _ => fail 1
      | |- In _ (events (bind _ _ _)) -> _ =>
          apply (bind_through _ _ P Q);
          [ repeat first
              [ apply killMountProcess_emits; intros; split; reflexivity
              | emits_step ];
            split; reflexivity
          | intros [Hmeta _]; discriminate Hmeta
          | exact Hstable
          | intros ? ?; cbv beta ]
      | |- In _ (events (match ?x with _ => _ end _)) -> _ => destruct x
      | |- In _ (events (exit_WithError _ _ _ _)) -> _ =>
          let H := fresh in intros [H|[]]; discriminate H
      end.
    rewrite bind_call.
    match goal with
    | |- context [pkg_config_DeleteProfile C profile ?s0] =>
        destruct (pkg_config_DeleteProfile C profile s0) as [[derr|] sfin]
    end; cbn [fst snd].
    - destruct (os_IsNotExist (Some derr)) eqn:Hne.
      + unfold bind, emit, os_Exit, prepend; cbn [outcome final events app].
        intros [H|[H|[]]]; [|discriminate H]. injection H as Hn He.
        subst derr. unfold Q. rewrite Hne. split; [now symmetry|]. split; [reflexivity|].
        split; [repeat constructor|]. now exists [].
      + unfold bind, emit, ret, os_Exit, exit_WithError, prepend;
          cbn [outcome final events app].
        intros [H|[H|[]]]; [|discriminate H]. injection H as Hn He.
        subst derr. unfold Q. rewrite Hne. split; [now symmetry|]. split; [reflexivity|].
        split; [repeat constructor|]. now exists [].
    - rewrite bind_ret. cbn [prepend events]. intros [H|H]; [discriminate H|].
      exfalso. revert H. cbn [app].
      match goal with
      | |- In _ (events (?m _)) -> False =>
          assert (Hm : emits (fun ev => isMetadataCall ev = false) m)
      end.
      { repeat emits_step; reflexivity. }
      intros H. specialize (Hm sfin). rewrite List.Forall_forall in Hm.
      apply Hm in H. discriminate H. }
  destruct HQ as (Hname & Hout & Hlater & Hpre).
  split; [exact Hname|]. split; [exact Hout|]. split; [|split; [|now split]].
  - intros Hne. now rewrite Hout, Hne.
  - intros Hne. rewrite Hout, Hne. eexists. split; [reflexivity|]. apply Hnz.
Qed.

(** *** Further behaviour of deleteProfileDirectory *)

Lemma remove_all_outside (m : gmap path node) (dir p : path) :
  ~ dir `prefix_of` p -> remove_all m dir !! p = m !! p.
Proof.
  intros H. unfold remove_all. rewrite map_lookup_filter.
  destruct (m !! p) as [x|]; [|reflexivity]. simpl. now rewrite option_guard_True.
Qed.

Lemma removeDirectory_cases (s : State Ext) dir :
  removeDirectory C dir s =
    match stat_result s dir with
    | Some e => mkRun (Ret tt) s [EvSys (SysStat dir) (Some e)]
    | None =>
        match removeall_result s dir with
        | None =>
            mkRun (Ret tt) (set_fs s (remove_all (fs s) dir))
              [EvSys (SysStat dir) None;
               OutT DeletingHost "Removing {{.directory}} ..." [("directory", VPath dir)];
               EvSys (SysRemoveAll dir) None]
        | Some e =>
            mkRun (Exited (exit_status C "Unable to remove machine directory: %v" e)) s
              [EvSys (SysStat dir) None;
               OutT DeletingHost "Removing {{.directory}} ..." [("directory", VPath dir)];
               EvSys (SysRemoveAll dir) (Some e);
               EvFatal "Unable to remove machine directory: %v" e]
        end
    end.
Proof.
  unfold removeDirectory, bind, os_Stat, os_RemoveAll, emit, exit_WithError, os_Exit, ret.
  destruct (stat_result s dir); cbn [outcome final events app]; [reflexivity|].
  now destruct (removeall_result s dir).
Qed.

Lemma removeDirectory_state (s : State Ext) dir :
  procs (final (removeDirectory C dir s)) = procs s /\
  faults (final (removeDirectory C dir s)) = faults s /\
  ext (final (removeDirectory C dir s)) = ext s /\
  forall p, ~ dir `prefix_of` p -> fs (final (removeDirectory C dir s)) !! p = fs s !! p.
Proof.
  rewrite removeDirectory_cases.
  destruct (stat_result s dir); [now repeat split|].
  destruct (removeall_result s dir); [now repeat split|].
  repeat split. intros p Hp. cbn. now apply remove_all_outside.
Qed.

Lemma removeDirectory_gone (s : State Ext) dir :
  faults s (SysStat dir) = None ->
  outcome (removeDirectory C dir s) = Ret tt ->
  fs (final (removeDirectory C dir s)) !! dir = None /\
  (is_Some (fs s !! dir) ->
   forall p, dir `prefix_of` p -> fs (final (removeDirectory C dir s)) !! p = None).
Proof.
  intros Hf. rewrite removeDirectory_cases. unfold stat_result, injected. rewrite Hf.
  cbn [fmap option_fmap option_map].
  destruct (fs s !! dir) as [n|] eqn:Hdir.
  - destruct (removeall_result s dir); cbn [outcome final]; [discriminate|].
    intros _. split; [|intros _ p Hp]; cbn; now apply remove_all_below.
  - intros _. cbn [final]. split; [exact Hdir|]. intros [n Hn]. discriminate Hn.
Qed.

Lemma machineDir_not_under (profile other : string) (p : path) :
  (p = machineDir C other \/ p = profileDir C other) -> other <> profile ->
  ~ machineDir C profile `prefix_of` p /\ ~ profileDir C profile `prefix_of` p.
Proof.
  unfold machineDir, profileDir, filepath_Join.
  intros [-> | ->] Hne; split; intros H; apply prefix_app_inv in H.
  - apply prefix_cons_inv_2, prefix_cons_inv_1 in H. congruence.
  - apply prefix_cons_inv_1 in H. discriminate H.
  - apply prefix_cons_inv_1 in H. discriminate H.
  - apply prefix_cons_inv_2, prefix_cons_inv_1 in H. congruence.
Qed.

Lemma root_not_under (dir : path) (x : string) (xs : list string) :
  ~ filepath_Join dir (x :: xs) `prefix_of` dir.
Proof.
  unfold filepath_Join. intros H. apply prefix_length in H.
  rewrite length_app in H. simpl in H. lia.
Qed.

Lemma dirs_apart (profile : string) :
  ~ machineDir C profile `prefix_of` profileDir C profile /\
  ~ profileDir C profile `prefix_of` machineDir C profile.
Proof.
  unfold machineDir, profileDir, filepath_Join.
  split; intros H; apply prefix_app_inv, prefix_cons_inv_1 in H; discriminate H.
Qed.

Lemma dirs_neq (profile : string) : machineDir C profile <> profileDir C profile.
Proof.
  unfold machineDir, profileDir, filepath_Join. intros H.
  apply app_inv_head in H. discriminate H.
Qed.

Lemma final_bind {A B} (m : M Ext A) (k : A -> M Ext B) s :
  final (bind m k s) =
  match outcome (m s) with
  | Ret a => final (k a (final (m s)))
  | Exited _ => final (m s)
  end.
Proof.
  unfold bind. destruct (m s) as [[a|status] s' evs]; simpl; [|reflexivity].
  now destruct (k a s').
Qed.

(** X10: when deleteProfileDirectory returns and the probes were not
    refused, neither directory of the profile is left, and where a
    directory was there, nothing below it is left either. *)
Theorem profile_directories_gone (s : State Ext) (profile : string) :
  faults s (SysStat (machineDir C profile)) = None ->
  faults s (SysStat (profileDir C profile)) = None ->
  outcome (deleteProfileDirectory C profile s) = Ret tt ->
  fs (final (deleteProfileDirectory C profile s)) !! machineDir C profile = None /\
  fs (final (deleteProfileDirectory C profile s)) !! profileDir C profile = None /\
  (is_Some (fs s !! machineDir C profile) ->
   forall p, machineDir C profile `prefix_of` p ->
     fs (final (deleteProfileDirectory C profile s)) !! p = None) /\
  (is_Some (fs s !! profileDir C profile) ->
   forall p, profileDir C profile `prefix_of` p ->
     fs (final (deleteProfileDirectory C profile s)) !! p = None).
Proof.
  intros Hfm Hfp. unfold deleteProfileDirectory.
  rewrite outcome_bind, final_bind.
  destruct (outcome (removeDirectory C (machineDir C profile) s)) as [[]|] eqn:Hm;
    [|discriminate].
  intros Hp.
  destruct (removeDirectory_gone s _ Hfm Hm) as [Hm1 Hm2].
  destruct (removeDirectory_state s (machineDir C profile)) as (_ & Hfaults & _ & Hout).
  set (s1 := final (removeDirectory C (machineDir C profile) s)) in *.
  assert (Hfp1 : faults s1 (SysStat (profileDir C profile)) = None) by now rewrite Hfaults.
  destruct (removeDirectory_gone s1 _ Hfp1 Hp) as [Hp1 Hp2].
  assert (Hkeep : forall q, fs s1 !! q = None ->
                    fs (final (removeDirectory C (profileDir C profile) s1)) !! q = None).
  { intros q Hq. now apply removeDirectory_frame. }
  split; [now apply Hkeep|]. split; [exact Hp1|]. split.
  - intros Hex p Hpre. apply Hkeep. now apply Hm2.
  - intros Hex p Hpre. apply Hp2; [|exact Hpre].
    rewrite Hout; [exact Hex|]. apply dirs_apart.
Qed.

(** X11: deleteProfileDirectory changes nothing but the two directories
    of its profile: every path outside them keeps its entry, among them the
    configuration root and the directories of every other profile, and the
    process table stays. *)
Theorem deleteProfileDirectory_frame (s : State Ext) (profile : string) :
  procs (final (deleteProfileDirectory C profile s)) = procs s /\
  faults (final (deleteProfileDirectory C profile s)) = faults s /\
  ext (final (deleteProfileDirectory C profile s)) = ext s /\
  (forall p,
      ~ machineDir C profile `prefix_of` p -> ~ profileDir C profile `prefix_of` p ->
      fs (final (deleteProfileDirectory C profile s)) !! p = fs s !! p) /\
  fs (final (deleteProfileDirectory C profile s)) !! localpath_MiniPath C
    = fs s !! localpath_MiniPath C /\
  (forall other, other <> profile ->
     fs (final (deleteProfileDirectory C profile s)) !! machineDir C other
       = fs s !! machineDir C other /\
     fs (final (deleteProfileDirectory C profile s)) !! profileDir C other
       = fs s !! profileDir C other).
Proof.
  assert (H : procs (final (deleteProfileDirectory C profile s)) = procs s /\
              faults (final (deleteProfileDirectory C profile s)) = faults s /\
              ext (final (deleteProfileDirectory C profile s)) = ext s /\
              forall p,
                ~ machineDir C profile `prefix_of` p ->
                ~ profileDir C profile `prefix_of` p ->
                fs (final (deleteProfileDirectory C profile s)) !! p = fs s !! p).
  { unfold deleteProfileDirectory. rewrite final_bind.
    destruct (removeDirectory_state s (machineDir C profile)) as (Hp1 & Hf1 & He1 & Hfs1).
    destruct (outcome (removeDirectory C (machineDir C profile) s)) as [[]|].
    - set (s1 := final (removeDirectory C (machineDir C profile) s)) in *.
      destruct (removeDirectory_state s1 (profileDir C profile)) as (Hp2 & Hf2 & He2 & Hfs2).
      repeat split; try congruence. intros p Hm Hp. now rewrite Hfs2, Hfs1.
    - repeat split; try assumption. intros p Hm _. now apply Hfs1. }
  destruct H as (Hprocs & Hfaults & Hext & Hfs).
  repeat split; try assumption.
  - apply Hfs; apply root_not_under.
  - apply Hfs; now apply (machineDir_not_under profile other); [left|].
  - apply Hfs; now apply (machineDir_not_under profile other); [right|].
Qed.

(** X12: a directory that is there but cannot be removed ends the process
    through [exit.WithError]; both directories report it with the same
    message, and after a failure on the machine directory the profile
    directory is not looked at. *)
Theorem directory_removal_failure_is_fatal
    (s : State Ext) (profile : string) (dir : path) (e : error) :
  In (EvSys (SysRemoveAll dir) (Some e)) (events (deleteProfileDirectory C profile s)) ->
  (dir = machineDir C profile \/ dir = profileDir C profile) /\
  outcome (deleteProfileDirectory C profile s) =
    Exited (exit_status C "Unable to remove machine directory: %v" e) /\
  (exists pre,
      events (deleteProfileDirectory C profile s) =
        (pre ++ [EvSys (SysRemoveAll dir) (Some e);
                 EvFatal "Unable to remove machine directory: %v" e])%list) /\
  (dir = machineDir C profile ->
   forall r, ~ In (EvSys (SysStat (profileDir C profile)) r)
               (events (deleteProfileDirectory C profile s))).
Proof.
  unfold deleteProfileDirectory, bind.
  rewrite (removeDirectory_cases s (machineDir C profile)).
  destruct (stat_result s (machineDir C profile)) as [e1|].
  - rewrite removeDirectory_cases.
    destruct (stat_result s (profileDir C profile)) as [e2|];
      [|destruct (removeall_result s (profileDir C profile)) as [e3|]];
      cbn [outcome final events app In]; intros Hin;
      repeat match type of Hin with
        | _ \/ _ => destruct Hin as [Hin|Hin]
        | False => destruct Hin
        | _ = _ => first [discriminate Hin | simplify_eq]
        end.
    split; [now right|]. split; [reflexivity|]. split; [now eexists [_; _; _]|].
    intros Heq. exfalso. symmetry in Heq. revert Heq. apply dirs_neq.
  - destruct (removeall_result s (machineDir C profile)) as [e1|].
    + cbn [outcome final events app In]. intros Hin.
      repeat match type of Hin with
        | _ \/ _ => destruct Hin as [Hin|Hin]
        | False => destruct Hin
        | _ = _ => first [discriminate Hin | simplify_eq]
        end.
      split; [now left|]. split; [reflexivity|]. split; [now eexists [_; _]|].
      intros _ r Hin.
      cbn [In] in Hin.
      repeat match type of Hin with
        | _ \/ _ => destruct Hin as [Hin|Hin]
        | False => destruct Hin
        | _ = _ => first [discriminate Hin | simplify_eq]
        end.
      now apply (dirs_neq profile).
    + rewrite removeDirectory_cases.
      destruct (stat_result (set_fs s (remove_all (fs s) (machineDir C profile)))
                  (profileDir C profile)) as [e2|];
        [|destruct (removeall_result
                      (set_fs s (remove_all (fs s) (machineDir C profile)))
                      (profileDir C profile)) as [e3|]];
        cbn [outcome final events app In]; intros Hin;
        repeat match type of Hin with
          | _ \/ _ => destruct Hin as [Hin|Hin]
          | False => destruct Hin
          | _ = _ => first [discriminate Hin | simplify_eq]
          end.
      split; [now right|]. split; [reflexivity|]. split; [now eexists [_; _; _; _; _]|].
      intros Heq. exfalso. symmetry in Heq. revert Heq. apply dirs_neq.
Qed.

(** *** Further behaviour of deleteProfile *)

Lemma bind_post {A B} (m : M Ext A) (k : A -> M Ext B)
    (P : Event -> Prop) (Q : Run Ext B -> Prop) (s : State Ext) :
  emits P m ->
  (forall evs r, Forall P evs -> Q r -> Q (prepend evs r)) ->
  (forall status s' evs, Forall P evs -> Q (mkRun (Exited status) s' evs)) ->
  (forall a s', Q (k a s')) ->
  Q (bind m k s).
Proof.
  intros Hm Hstable Hexit Hk. specialize (Hm s).
  destruct (outcome (m s)) as [a|status] eqn:Hout.
  - rewrite (bind_returned _ _ s a Hout). now apply Hstable.
  - rewrite (bind_exited _ _ s status Hout). now apply Hexit.
Qed.

Lemma bind_exit_WithError {A B} msg err (k : A -> M Ext B) s :
  bind (exit_WithError C msg err) k s = exit_WithError C msg err s.
Proof. reflexivity. Qed.

Ltac emits_all leaf :=
  repeat first [ apply killMountProcess_emits; intros | emits_step ]; leaf.

(** X13: the four steps of deleteProfile that are fatal (setting the
    active profile, getting the client, editing the credentials file,
    clearing the active profile) end the process through [exit.WithError]
    with their own message as soon as they fail: the failed call and the
    report are the last two events. *)
Theorem fatal_step_terminates
    (profile : string) (s : State Ext) (c : Call) (e : error) (msg : string) :
  fatalMessage c = Some msg ->
  In (EvCall c (Some e)) (events (deleteProfile C profile s)) ->
  outcome (deleteProfile C profile s) = Exited (exit_status C msg e) /\
  exists pre,
    events (deleteProfile C profile s) = (pre ++ [EvCall c (Some e); EvFatal msg e])%list.
Proof.
  intros Hmsg.
  set (P := fun ev : Event =>
    match ev with
    | EvCall c' err =>
        match fatalMessage c' with
        | Some _ => err = None
        | None => True
        end
    | _ => True
    end).
  set (Q := fun r : Run Ext unit =>
    In (EvCall c (Some e)) (events r) ->
    outcome r = Exited (exit_status C msg e) /\
    exists pre, events r = (pre ++ [EvCall c (Some e); EvFatal msg e])%list).
  assert (HnotP : ~ P (EvCall c (Some e))).
  { unfold P. rewrite Hmsg. discriminate. }
  assert (Hnot : forall evs, Forall P evs -> ~ In (EvCall c (Some e)) evs).
  { intros evs Hevs Hin. rewrite List.Forall_forall in Hevs. now apply HnotP, Hevs. }
  assert (Hstable : forall evs r, Forall P evs -> Q r -> Q (prepend evs r)).
  { intros evs r Hevs Hr Hin. cbn [prepend events] in Hin.
    apply in_app_or in Hin. destruct Hin as [Hin|Hin]; [now apply Hnot in Hin|].
    destruct (Hr Hin) as (Hout & pre & Hpre). split; [exact Hout|].
    exists (evs ++ pre)%list. cbn [prepend events]. now rewrite Hpre, app_assoc. }
  assert (Hexit : forall status s' evs, Forall P evs -> Q (mkRun (Exited status) s' evs)).
  { intros status s' evs Hevs Hin. now apply Hnot in Hin. }
  assert (Hone : forall ev r, P ev -> Q r -> Q (prepend [ev] r)).
  { intros ev r Hev. apply Hstable. now constructor. }
  assert (Hfatal : forall c' e' msg' s',
             fatalMessage c' = Some msg' ->
             Q (prepend [EvCall c' (Some e')] (exit_WithError C msg' e' s'))).
  { intros c' e' msg' s' Hmsg' [Hin|[Hin|[]]]; [|discriminate Hin].
    injection Hin as -> ->. rewrite Hmsg in Hmsg'. injection Hmsg' as ->.
    split; [reflexivity|]. now exists []. }
  change (Q (deleteProfile C profile s)).
  unfold deleteProfile, uninstallKubernetes, deleteProfileDirectory, removeDirectory.
  repeat match goal with
    | |- Q (bind (call (CSet _ _) ?f) _ ?s0) =>
        rewrite bind_call; destruct (f s0) as [[?|] ?]; cbn [fst snd];
        [ now apply Hfatal | apply Hone; [reflexivity|] ]
    | |- Q (bind (call_val CNewAPIClient ?f) _ ?s0) =>
        rewrite bind_call_val; destruct (f s0) as [[?|?] ?]; cbn [fst snd err_of];
        [ apply Hone; [reflexivity|] | now apply Hfatal ]
    | |- Q (bind (call (CDeleteContext _ _) ?f) _ ?s0) =>
        rewrite bind_call; destruct (f s0) as [[?|] ?]; cbn [fst snd];
        [ rewrite bind_exit_WithError; now apply Hfatal
        | apply Hone; [reflexivity|]; rewrite bind_ret ]
    | |- Q (bind (call (CUnset _) ?f) _ ?s0) =>
        rewrite bind_call; destruct (f s0) as [[?|] ?]; cbn [fst snd];
        [ rewrite bind_exit_WithError; now apply Hfatal
        | apply Hone; [reflexivity|]; rewrite bind_ret ]
    | |- Q (bind _ _ _) =>
        apply (bind_post _ _ P Q);
        [ emits_all ltac:(exact I) | exact Hstable | exact Hexit | intros ? ?; cbv beta ]
    | |- Q (match ?x with _ => _ end _) => destruct x
    | |- Q (call_ CClose _ _) =>
        let H := fresh in intros [H|[]]; discriminate H
    end.
Qed.

(** X14: the deferred [api.Close()] runs when deleteProfile returns, once
    and as its last action, right after the active profile has been
    cleared; when deleteProfile terminates the process instead, the client
    is never closed. *)
Theorem close_runs_exactly_on_return (profile : string) (s : State Ext) :
  match outcome (deleteProfile C profile s) with
  | Ret _ =>
      exists pre,
        events (deleteProfile C profile s) =
          (pre ++ [EvCall (CUnset (pkg_config_MachineProfile C)) None;
                   EvCall CClose None])%list /\
        Forall (fun e => isClose e = false) pre
  | Exited _ => Forall (fun e => isClose e = false) (events (deleteProfile C profile s))
  end.
Proof.
  set (P := fun e : Event => isClose e = false).
  set (Q := fun r : Run Ext unit =>
    match outcome r with
    | Ret _ =>
        exists pre,
          events r =
            (pre ++ [EvCall (CUnset (pkg_config_MachineProfile C)) None;
                     EvCall CClose None])%list /\
          Forall P pre
    | Exited _ => Forall P (events r)
    end).
  assert (Hstable : forall evs r, Forall P evs -> Q r -> Q (prepend evs r)).
  { intros evs r Hevs. unfold Q. cbn [prepend outcome events].
    destruct (outcome r).
    - intros (pre & Hpre & HP). exists (evs ++ pre)%list.
      split; [now rewrite Hpre, app_assoc|]. apply Forall_app. now split.
    - intros HP. apply Forall_app. now split. }
  assert (Hexit : forall status s' evs, Forall P evs -> Q (mkRun (Exited status) s' evs)).
  { intros status s' evs Hevs. exact Hevs. }
  change (Q (deleteProfile C profile s)).
  unfold deleteProfile, uninstallKubernetes, deleteProfileDirectory, removeDirectory.
  repeat match goal with
    | |- Q (bind (call (CUnset _) ?f) _ ?s0) =>
        rewrite bind_call; destruct (f s0) as [[?|] ?]; cbn [fst snd];
        [ rewrite bind_exit_WithError; repeat constructor
        | rewrite bind_ret; exists []; split; [reflexivity|constructor] ]
    | |- Q (bind _ _ _) =>
        apply (bind_post _ _ P Q);
        [ emits_all ltac:(reflexivity) | exact Hstable | exact Hexit
        | intros ? ?; cbv beta ]
    | |- Q (match ?x with _ => _ end _) => destruct x
    | |- Q (exit_WithError _ _ _ _) => repeat constructor
    end.
Qed.

(** *** Steps that always happen *)

Lemma always_here {A B} E (m : M Ext A) (k : A -> M Ext B) :
  always E m -> always E (bind m k).
Proof.
  intros Hm s. destruct (Hm s) as (e & He & Hin). exists e. split; [exact He|].
  rewrite events_bind. apply in_or_app. now left.
Qed.

Lemma always_later {A B} E (m : M Ext A) (k : A -> M Ext B) :
  (forall s, (exists a, outcome (m s) = Ret a) \/ exists e, E e /\ In e (events (m s))) ->
  (forall a, always E (k a)) -> always E (bind m k).
Proof.
  intros Hm Hk s. rewrite events_bind. destruct (Hm s) as [[a Ha]|(e & He & Hin)].
  - rewrite Ha. destruct (Hk a (final (m s))) as (e & He & Hin).
    exists e. split; [exact He|]. apply in_or_app. now right.
  - exists e. split; [exact He|]. apply in_or_app. now left.
Qed.

Lemma always_after {A B} E (m : M Ext A) (k : A -> M Ext B) :
  returns m -> (forall a, always E (k a)) -> always E (bind m k).
Proof. intros Hm. apply always_later. intros s. left. apply Hm. Qed.

Lemma always_call E c f : (forall err, E (EvCall c err)) -> always (Ext:=Ext) E (call c f).
Proof.
  intros H s. unfold call. destruct (f s) as [err s']. exists (EvCall c err).
  split; [apply H|now left].
Qed.

Lemma always_call_val {A} E c (f : State Ext -> (A + error) * State Ext) :
  (forall err, E (EvCall c err)) -> always E (call_val c f).
Proof.
  intros H s. unfold call_val. destruct (f s) as [r s']. exists (EvCall c (err_of r)).
  split; [apply H|now left].
Qed.

Lemma always_os_Stat E p : (forall r, E (EvSys (SysStat p) r)) -> always (Ext:=Ext) E (os_Stat p).
Proof. intros H s. eexists. split; [apply H|now left]. Qed.

Lemma removeDirectory_returns_or_fails dir (s : State Ext) :
  (exists a, outcome (removeDirectory C dir s) = Ret a) \/
  exists e, isFailedRemoval e /\ In e (events (removeDirectory C dir s)).
Proof.
  rewrite removeDirectory_cases.
  destruct (stat_result s dir); [left; eauto|].
  destruct (removeall_result s dir) as [e|]; [|left; eauto].
  right. exists (EvSys (SysRemoveAll dir) (Some e)). split; [now exists dir, e|].
  cbn. tauto.
Qed.

Ltac always_returns :=
  solve [ repeat first
            [ apply killMountProcess_returns
            | apply uninstallKubernetes_returns
            | returns_step ] ].

(** X15: once the active profile is set and the client acquired, none of
    the soft failures stops the teardown: the configuration is loaded, the
    reaper runs, the deletion of the host is requested and the machine
    directory is looked at, whatever the earlier steps returned; and the
    metadata entry is deleted unless a directory could not be removed. *)
Theorem soft_failures_do_not_abort (profile : string) (s : State Ext) :
  In (EvCall CNewAPIClient None) (events (deleteProfile C profile s)) ->
  (exists r, In (EvCall CLoad r) (events (deleteProfile C profile s))) /\
  (exists r, In (EvSys (SysStat (mountProcessPath C)) r) (events (deleteProfile C profile s))) /\
  (exists r, In (EvCall CDeleteHost r) (events (deleteProfile C profile s))) /\
  (exists r, In (EvSys (SysStat (machineDir C profile)) r)
               (events (deleteProfile C profile s))) /\
  ((exists r, In (EvCall (CDeleteProfile profile) r) (events (deleteProfile C profile s))) \/
   (exists e, isFailedRemoval e /\ In e (events (deleteProfile C profile s)))).
Proof.
  unfold deleteProfile. rewrite bind_emit, bind_call.
  destruct (cmdcfg_Set C (pkg_config_MachineProfile C) profile s) as [[e|] s1];
    cbn [fst snd].
  { intros [H|[H|[H|[]]]]; discriminate H. }
  rewrite bind_emit, bind_call_val.
  destruct (machine_NewAPIClient C s1) as [[api|e] s2]; cbn [fst snd err_of].
  2: { intros [H|[H|[H|[H|[H|[]]]]]]; discriminate H. }
  intros _.
  match goal with
  | |- context [prepend _ (prepend _ (prepend _ (prepend _ (?rest s2))))] => set (R := rest)
  end.
  assert (Hlift : forall E, always E R ->
            exists e, E e /\ In e (events (prepend [Glog "Setting current profile to -- %v" [VStr profile]]
              (prepend [EvCall (CSet (pkg_config_MachineProfile C) profile) None]
                 (prepend [Glog "Successfully set profile to -- %v" [VStr profile]]
                    (prepend [EvCall CNewAPIClient None] (R s2))))))).
  { intros E HE. destruct (HE s2) as (e & He & Hin). exists e. split; [exact He|].
    cbn [prepend events app In]. tauto. }
  assert (Hload : always (fun e => exists r, e = EvCall CLoad r) R).
  { unfold R. apply always_here, always_call_val. eauto. }
  assert (Hreap : always (fun e => exists r, e = EvSys (SysStat (mountProcessPath C)) r) R).
  { unfold R. do 3 (apply always_after; [always_returns|intro]).
    apply always_here. unfold killMountProcess. apply always_here, always_os_Stat. eauto. }
  assert (Hhost : always (fun e => exists r, e = EvCall CDeleteHost r) R).
  { unfold R. do 5 (apply always_after; [always_returns|intro]).
    apply always_here, always_call. eauto. }
  assert (Hdir : always (fun e => exists r, e = EvSys (SysStat (machineDir C profile)) r) R).
  { unfold R. do 7 (apply always_after; [always_returns|intro]).
    apply always_here. unfold deleteProfileDirectory, removeDirectory.
    do 2 apply always_here. apply always_os_Stat. eauto. }
  assert (Hmeta : always (fun e => (exists r, e = EvCall (CDeleteProfile profile) r) \/
                                   isFailedRemoval e) R).
  { unfold R. do 7 (apply always_after; [always_returns|intro]).
    unfold deleteProfileDirectory.
    apply always_later.
    - intros s0. rewrite outcome_bind, events_bind.
      destruct (removeDirectory_returns_or_fails (machineDir C profile) s0)
        as [[[] Ha]|(e & He & Hin)].
      + rewrite Ha.
        destruct (removeDirectory_returns_or_fails (profileDir C profile)
                    (final (removeDirectory C (machineDir C profile) s0)))
          as [[[] Hb]|(e & He & Hin)].
        * left. eauto.
        * right. exists e. split; [now right|]. apply in_or_app. now right.
      + right. exists e. split; [now right|]. apply in_or_app. now left.
    - intros _. apply always_here, always_call. intros err. left. eauto. }
  destruct (Hlift _ Hload) as (e1 & [r1 ->] & H1).
  destruct (Hlift _ Hreap) as (e2 & [r2 ->] & H2).
  destruct (Hlift _ Hhost) as (e3 & [r3 ->] & H3).
  destruct (Hlift _ Hdir) as (e4 & [r4 ->] & H4).
  destruct (Hlift _ Hmeta) as (e5 & He5 & H5).
  split; [eauto|]. split; [eauto|]. split; [eauto|]. split; [eauto|].
  destruct He5 as [[r5 ->]|He5]; [left|right]; eauto.
Qed.

(** X16: the bootstrapper is left alone unless the configuration loaded
    and names the "none" driver: when the load fails, or the driver is
    another one, deleteProfile neither resolves the bootstrapper nor calls
    its uninstall operation. *)
Theorem uninstall_only_for_none_driver
    (profile : string) (s s1 s2 s3 : State Ext) (api : API) (loaded : Config + error) :
  cmdcfg_Set C (pkg_config_MachineProfile C) profile s = (None, s1) ->
  machine_NewAPIClient C s1 = (inl api, s2) ->
  pkg_config_Load C s2 = (loaded, s3) ->
  match loaded with
  | inl cc => VMDriver (MachineConfig_ cc) <> constants_DriverNone C
  | inr _ => True
  end ->
  Forall (fun e => isBootstrapperCall e = false) (events (deleteProfile C profile s)).
Proof.
  intros Hset Hnew Hload Hdriver. unfold deleteProfile.
  rewrite bind_emit, bind_call, Hset. cbn [fst snd].
  rewrite bind_emit, bind_call_val, Hnew. cbn [fst snd].
  rewrite bind_call_val, Hload. cbn [fst snd prepend events app].
  repeat (constructor; [reflexivity|]).
  match goal with
  | |- Forall ?P (events (?m s3)) =>
      assert (Hm : emits P m); [|exact (Hm s3)]
  end.
  unfold deleteProfileDirectory, removeDirectory.
  destruct loaded as [cc|e].
  - apply String.eqb_neq in Hdriver. rewrite Hdriver.
    emits_all ltac:(reflexivity).
  - emits_all ltac:(reflexivity).
Qed.

(** X17: the teardown of a profile removes nothing but the PID file and
    the two directories of that profile, and the profile it names to the
    pointer store and to the metadata store is its own. *)
Theorem teardown_touches_only_its_profile (profile : string) (s : State Ext) :
  Forall (ownEffect C profile) (events (deleteProfile C profile s)).
Proof.
  revert s. change (emits (ownEffect C profile) (deleteProfile C profile)).
  unfold deleteProfile, uninstallKubernetes, deleteProfileDirectory, removeDirectory,
    killMountProcess.
  repeat emits_step;
    first [ exact I | reflexivity | now left | now right | now split ].
Qed.

(** *** Further behaviour of runDelete *)

Lemma guard_false_cases vs err :
  (length vs <= 1)%nat \/ viper_GetBool C forcedelete = true \/
  viper_GetBool C purge = false \/ err <> None ->
  guard C vs err = false.
Proof.
  unfold guard. intros [H|[H|[H|H]]].
  - replace (1 <? Z.of_nat (length vs)) with false
      by (symmetry; apply Z.ltb_ge; lia).
    now rewrite andb_false_r.
  - rewrite H. now rewrite andb_false_r.
  - rewrite H. now rewrite andb_false_r.
  - destruct err; [reflexivity|congruence].
Qed.

(** X18: any positional argument is a usage error: runDelete terminates
    with the usage status before it enumerates the profiles, and nothing is
    changed. *)
Theorem positional_arguments_are_refused (s : State Ext) (args : list string) :
  args <> [] ->
  runDelete C args s =
    mkRun (Exited (exit_BadUsage C)) s [EvUsage "Usage: minikube delete"].
Proof.
  destruct args as [|arg args]; [congruence|]. intros _. unfold runDelete.
  replace (0 <? Z.of_nat (length (arg :: args))) with true
    by (symmetry; apply Z.ltb_lt; simpl length; lia).
  reflexivity.
Qed.

(** X19: the guard fires only for a purge of several profiles without
    force: with at most one profile, with force, without purge, or after a
    failed enumeration, runDelete goes on to the teardown of every profile
    and to the purge step. *)
Theorem guard_only_for_unforced_purge_of_several
    (s : State Ext) (vs ivs : list Profile) (err : option error) :
  pkg_config_ListProfiles C s = (vs, ivs, err) ->
  (length vs <= 1)%nat \/ viper_GetBool C forcedelete = true \/
  viper_GetBool C purge = false \/ err <> None ->
  runDelete C [] s =
    prepend ([EvCall CListProfiles err] ++ flagLog C) (teardownAndPurge C vs s).
Proof.
  intros Hlist Hcases. apply (runDelete_unguarded s vs ivs err Hlist).
  now apply guard_false_cases.
Qed.

(** X20: without the purge flag runDelete never removes the configuration
    root, whatever the arguments, the profiles and the collaborators. *)
Theorem no_purge_keeps_root (s : State Ext) (args : list string) :
  viper_GetBool C purge = false ->
  Forall (fun e => ~ isRootRemoval C e) (events (runDelete C args s)).
Proof.
  intros Hpurge. destruct args as [|arg args].
  - destruct (pkg_config_ListProfiles C s) as [[vs ivs] err] eqn:Hlist.
    rewrite (runDelete_unguarded s vs ivs err Hlist)
      by (apply guard_false_cases; tauto).
    cbn [prepend events app]. unfold flagLog.
    repeat (constructor; [not_root_removal|]).
    unfold teardownAndPurge. rewrite Hpurge.
    match goal with
    | |- Forall ?P (events (?m s)) => assert (Hm : emits P m); [|exact (Hm s)]
    end.
    apply emits_bind; [|intros _; apply emits_ret].
    apply emits_forEach. intros p. apply deleteProfile_keeps_root.
  - rewrite runDelete_usage. repeat constructor. not_root_removal.
Qed.

Lemma bind_assoc {A B D} (m : M Ext A) (f : A -> M Ext B) (g : B -> M Ext D) s :
  bind (bind m f) g s = bind m (fun x => bind (f x) g) s.
Proof.
  unfold bind. destruct (m s) as [[a|status] s' evs]; [|reflexivity].
  destruct (f a s') as [[b|status] s'' evs']; [|reflexivity].
  destruct (g b s'') as [o s3 evs3]. now rewrite app_assoc.
Qed.

Lemma bind_ext {A B} (m : M Ext A) (f g : A -> M Ext B) s :
  (forall a s', f a s' = g a s') -> bind m f s = bind m g s.
Proof.
  intros H. unfold bind. destruct (m s) as [[a|status] s' evs]; [|reflexivity].
  now rewrite H.
Qed.

Lemma teardownAll_app (vs ws : list Profile) (s : State Ext) :
  teardownAll C (vs ++ ws) s = bind (teardownAll C vs) (fun _ => teardownAll C ws) s.
Proof.
  revert s. unfold teardownAll. induction vs as [|v vs IH]; intros s; cbn [app forEach].
  - now rewrite bind_ret.
  - rewrite bind_assoc. apply bind_ext. intros _ s'. apply IH.
Qed.

(** X21: a teardown that terminates the process ends the whole run: the
    profiles enumerated after it are not visited and the purge step does
    not run; the events are those of the teardowns up to and including the
    one that terminated. *)
Theorem teardown_stops_at_first_exit
    (s : State Ext) (vs ws ivs : list Profile) (p : Profile) (err : option error)
    (status : Z) :
  pkg_config_ListProfiles C s = ((vs ++ p :: ws)%list, ivs, err) ->
  guard C ((vs ++ p :: ws)%list) err = false ->
  outcome (teardownAll C vs s) = Ret tt ->
  outcome (deleteProfile C (Name p) (final (teardownAll C vs s))) = Exited status ->
  teardownAll C ((vs ++ p :: ws)%list) s =
    mkRun (Exited status)
      (final (deleteProfile C (Name p) (final (teardownAll C vs s))))
      (events (teardownAll C vs s) ++
       events (deleteProfile C (Name p) (final (teardownAll C vs s))))%list /\
  runDelete C [] s =
    mkRun (Exited status)
      (final (deleteProfile C (Name p) (final (teardownAll C vs s))))
      ([EvCall CListProfiles err] ++ flagLog C ++
       events (teardownAll C vs s) ++
       events (deleteProfile C (Name p) (final (teardownAll C vs s)))).
Proof.
  intros Hlist Hguard Hvs Hp.
  assert (Hall : teardownAll C ((vs ++ p :: ws)%list) s =
                 mkRun (Exited status)
                   (final (deleteProfile C (Name p) (final (teardownAll C vs s))))
                   (events (teardownAll C vs s) ++
                    events (deleteProfile C (Name p) (final (teardownAll C vs s))))%list).
  { rewrite teardownAll_app, (bind_returned _ _ s tt Hvs).
    unfold teardownAll at 2. cbn [forEach].
    rewrite (bind_exited _ _ _ status Hp). reflexivity. }
  split; [exact Hall|].
  rewrite (runDelete_unguarded s _ ivs err Hlist Hguard).
  unfold teardownAndPurge.
  rewrite (bind_exited _ _ s status) by now rewrite Hall.
  rewrite Hall. reflexivity.
Qed.

End Teardown.

(** ** The theorems at sample runs *)

Ltac find_event := vm_compute; repeat (first [left; reflexivity | right]).

Import Sample.

Lemma guard_performs_no_mutation_witness :
  pkg_config_ListProfiles guarded plain = (three, [], None) /\
  viper_GetBool guarded purge = true /\
  (1 < length three)%nat /\
  viper_GetBool guarded forcedelete = false /\
  runDelete guarded [] plain =
    mkRun (Ret tt) plain
      ([EvCall CListProfiles None] ++ flagLog guarded ++ guardOutput three) /\
  final (runDelete guarded [] plain) = plain.
Proof.
  assert (Hlen : (1 < length three)%nat) by (simpl; lia).
  pose proof (guard_performs_no_mutation guarded plain three [] eq_refl eq_refl Hlen eq_refl)
    as (Hrun & Hfinal & _).
  repeat split; try reflexivity; assumption.
Defined.

Lemma metadata_failure_terminates_witness :
  exits_nonzero gone /\
  In (EvCall (CDeleteProfile "a") (Some notFound)) (events (deleteProfile gone "a" plain)) /\
  outcome (deleteProfile gone "a" plain) = Exited 0 /\
  Forall (fun e => isLaterStep e = false) (events (deleteProfile gone "a" plain)).
Proof.
  assert (Hnz : exits_nonzero gone) by (split; [|intros msg err]; simpl; lia).
  assert (Hin : In (EvCall (CDeleteProfile "a") (Some notFound))
                  (events (deleteProfile gone "a" plain))) by find_event.
  pose proof (metadata_failure_terminates gone "a" plain "a" notFound Hnz Hin)
    as (_ & _ & Hzero & _ & Hlater & _).
  split; [exact Hnz|]. split; [exact Hin|]. split; [now apply Hzero|exact Hlater].
Defined.

Lemma none_driver_counterexample :
  pkg_config_Load inPlace plain = (inl noneConfig, plain) /\
  VMDriver (MachineConfig_ noneConfig) = constants_DriverNone inPlace /\
  In (EvCall (CDeleteCluster (KubernetesConfig_ noneConfig)) None)
    (events (deleteProfile inPlace "a" plain)) /\
  In (EvCall CDeleteHost None) (events (deleteProfile inPlace "a" plain)).
Proof.
  split; [reflexivity|]. split; [reflexivity|]. split; find_event.
Qed.

Lemma none_driver_uninstalls_then_deletes_host_witness :
  cmdcfg_Set inPlace (pkg_config_MachineProfile inPlace) "a" plain = (None, plain) /\
  machine_NewAPIClient inPlace plain = (inl tt, plain) /\
  pkg_config_Load inPlace plain = (inl noneConfig, plain) /\
  VMDriver (MachineConfig_ noneConfig) = constants_DriverNone inPlace /\
  In (EvCall (CGetClusterBootstrapper "kubeadm") None)
    (events (uninstallKubernetes inPlace tt (KubernetesConfig_ noneConfig) "kubeadm" plain)) /\
  In (EvCall (CDeleteCluster (KubernetesConfig_ noneConfig)) None)
    (events (uninstallKubernetes inPlace tt (KubernetesConfig_ noneConfig) "kubeadm" plain)).
Proof.
  pose proof (none_driver_uninstalls_then_deletes_host inPlace "a" plain plain plain plain
                tt noneConfig eq_refl eq_refl eq_refl eq_refl) as (_ & Hresolve & Hdelete).
  repeat split; try reflexivity; [exact Hresolve|exact (Hdelete tt eq_refl)].
Defined.

Lemma enumeration_error_counterexample :
  pkg_config_ListProfiles failing plain = ([], [], Some unlisted) /\
  outcome (runDelete failing [] plain) = Ret tt /\
  In (EvSys (SysRemoveAll root) None) (events (runDelete failing [] plain)) /\
  fs (final (runDelete failing [] plain)) !! root = None.
Proof.
  split; [reflexivity|]. split; [reflexivity|]. split; [find_event|reflexivity].
Qed.

Lemma enumeration_error_skips_guard_witness :
  pkg_config_ListProfiles failing plain = ([], [], Some unlisted) /\
  guard failing [] (Some unlisted) = false /\
  outcome (runDelete failing [] plain) = outcome (teardownAndPurge failing [] plain).
Proof.
  pose proof (enumeration_error_skips_guard failing plain [] [] unlisted eq_refl)
    as (Hguard & _ & Hout & _).
  split; [reflexivity|]. now split.
Defined.

Lemma stale_pid_counterexample :
  is_Some (fs (withPidFile "4242" false removeDenied) !! mountProcessPath quiet) /\
  read_result (withPidFile "4242" false removeDenied) (mountProcessPath quiet) = inl "4242" /\
  strconv_Atoi "4242" = inl 4242 /\
  psfind_result (withPidFile "4242" false removeDenied) 4242 = inl None /\
  outcome (killMountProcess quiet (withPidFile "4242" false removeDenied)) =
    Ret (Some (errors_Wrap (OsError EACCES) "Removing stale pid")) /\
  fs (final (killMountProcess quiet (withPidFile "4242" false removeDenied)))
    !! mountProcessPath quiet = Some (File "4242").
Proof.
  split; [eexists; reflexivity|]. repeat split; reflexivity.
Qed.

Lemma stale_pid_file_removal_witness :
  read_result (withPidFile "4242" false noFault) (mountProcessPath quiet) = inl "4242" /\
  strconv_Atoi "4242" = inl 4242 /\
  psfind_result (withPidFile "4242" false noFault) 4242 = inl None /\
  forallb (fun e => negb (isKill e))
    (events (killMountProcess quiet (withPidFile "4242" false noFault))) = true /\
  outcome (killMountProcess quiet (withPidFile "4242" false noFault)) = Ret None /\
  fs (final (killMountProcess quiet (withPidFile "4242" false noFault)))
    !! mountProcessPath quiet = None.
Proof.
  pose proof (stale_pid_file_removal quiet (withPidFile "4242" false noFault) "4242" 4242
                eq_refl eq_refl eq_refl) as (_ & _ & Hkill & Hrm).
  split; [reflexivity|]. split; [reflexivity|]. split; [reflexivity|].
  split; [exact Hkill|exact Hrm].
Defined.

Lemma kill_failure_removes_pid_file_witness :
  In (EvSys (SysKill 4242) (Some (OsError EPERM)))
    (events (killMountProcess quiet (withPidFile "4242" true killDenied))) /\
  exists (exe : string) (rm : option error) (pre : list Event) (err : error),
    psfind_result (withPidFile "4242" true killDenied) 4242 = inl (Some exe) /\
    events (killMountProcess quiet (withPidFile "4242" true killDenied)) =
      (pre ++ [EvSys (SysKill 4242) (Some (OsError EPERM));
               Glog "Kill failed with %v - removing probably stale pid..."
                 [VErr (OsError EPERM)];
               EvSys (SysRemove (mountProcessPath quiet)) rm])%list /\
    outcome (killMountProcess quiet (withPidFile "4242" true killDenied)) = Ret (Some err).
Proof.
  assert (Hin : In (EvSys (SysKill 4242) (Some (OsError EPERM)))
                  (events (killMountProcess quiet (withPidFile "4242" true killDenied))))
    by find_event.
  split; [exact Hin|].
  destruct (kill_failure_removes_pid_file quiet _ _ _ Hin)
    as (exe & rm & pre & err & Hps & Hev & Hout & _).
  now exists exe, rm, pre, err.
Defined.

Lemma kill_success_keeps_pid_file_witness :
  In (EvSys (SysKill 4242) None)
    (events (killMountProcess quiet (withPidFile "4242" true noFault))) /\
  outcome (killMountProcess quiet (withPidFile "4242" true noFault)) = Ret None /\
  fs (final (killMountProcess quiet (withPidFile "4242" true noFault))) =
    fs (withPidFile "4242" true noFault).
Proof.
  assert (Hin : In (EvSys (SysKill 4242) None)
                  (events (killMountProcess quiet (withPidFile "4242" true noFault))))
    by find_event.
  pose proof (kill_success_keeps_pid_file quiet _ _ Hin) as (Hout & Hfs & _).
  split; [exact Hin|]. now split.
Defined.

Lemma absent_directory_is_silent_noop_witness :
  fs bare !! machineDir quiet "a" = None /\
  fs bare !! profileDir quiet "a" = None /\
  forall B (k : unit -> M unit B),
    bind (deleteProfileDirectory quiet "a") k bare =
      prepend
        [EvSys (SysStat (machineDir quiet "a")) (stat_result bare (machineDir quiet "a"));
         EvSys (SysStat (profileDir quiet "a")) (stat_result bare (profileDir quiet "a"))]
        (k tt bare).
Proof.
  pose proof (absent_directory_is_silent_noop quiet bare "a") as (_ & _ & _ & Hboth).
  split; [reflexivity|]. split; [reflexivity|]. exact (Hboth eq_refl eq_refl).
Defined.

Lemma purge_counterexample :
  pkg_config_ListProfiles purgeGone plain = ([{| Name := "a" |}], [], None) /\
  viper_GetBool purgeGone purge = true /\
  guard purgeGone [{| Name := "a" |}] None = false /\
  outcome (runDelete purgeGone [] plain) = Exited 0 /\
  fs (final (runDelete purgeGone [] plain)) !! root = Some Dir.
Proof.
  repeat split; reflexivity.
Qed.

Lemma purge_follows_every_teardown_witness :
  pkg_config_ListProfiles purging plain = ([{| Name := "a" |}], [], None) /\
  viper_GetBool purging purge = true /\
  guard purging [{| Name := "a" |}] None = false /\
  Forall (fun e => ~ isRootRemoval purging e)
    ([EvCall CListProfiles None] ++ flagLog purging ++
     events (teardownAll purging [{| Name := "a" |}] plain)) /\
  outcome (runDelete purging [] plain) = Ret tt /\
  forall p, root `prefix_of` p -> fs (final (runDelete purging [] plain)) !! p = None.
Proof.
  pose proof (purge_follows_every_teardown purging plain [{| Name := "a" |}] [] None
                eq_refl eq_refl eq_refl) as (Hbefore & Hafter).
  split; [reflexivity|]. split; [reflexivity|]. split; [reflexivity|].
  split; [exact Hbefore|]. exact (proj2 (proj2 Hafter)).
Defined.

Lemma unreadable_pid_file_stays_witness :
  is_Some (fs (withPidFile "not a pid" false noFault) !! mountProcessPath quiet) /\
  (exists contents e,
      read_result (withPidFile "not a pid" false noFault) (mountProcessPath quiet)
        = inl contents /\
      strconv_Atoi contents = inr e) /\
  final (killMountProcess quiet (withPidFile "not a pid" false noFault)) =
    withPidFile "not a pid" false noFault /\
  forall n,
    killMountProcess quiet (invocations quiet n (withPidFile "not a pid" false noFault)) =
    killMountProcess quiet (withPidFile "not a pid" false noFault).
Proof.
  assert (Hex : is_Some (fs (withPidFile "not a pid" false noFault)
                           !! mountProcessPath quiet)) by (eexists; reflexivity).
  assert (Hbad : exists contents e,
             read_result (withPidFile "not a pid" false noFault) (mountProcessPath quiet)
               = inl contents /\
             strconv_Atoi contents = inr e) by (eexists _, _; split; reflexivity).
  pose proof (unreadable_pid_file_stays quiet _ Hex (or_intror Hbad))
    as (_ & Hfinal & _ & Hagain).
  split; [exact Hex|]. split; [exact Hbad|]. now split.
Defined.


(** ** Further theorems at sample runs *)

Lemma reaper_absent_pid_file_witness :
  fs plain !! mountProcessPath quiet = None /\
  faults plain (SysStat (mountProcessPath quiet)) = None /\
  killMountProcess quiet plain =
    mkRun (Ret None) plain [EvSys (SysStat (mountProcessPath quiet)) (Some (OsError ENOENT))].
Proof.
  split; [reflexivity|]. split; [reflexivity|].
  exact (proj1 (reaper_absent_pid_file quiet plain eq_refl eq_refl)).
Defined.

Lemma reaper_stat_failure_is_not_absence_witness :
  faults (faulty statDenied) (SysStat (mountProcessPath quiet)) = Some FaultAccess /\
  fs (faulty statDenied) !! mountProcessPath quiet = None /\
  faults (faulty statDenied) (SysReadFile (mountProcessPath quiet)) = None /\
  outcome (killMountProcess quiet (faulty statDenied)) =
    Ret (Some (errors_Wrap (OsError ENOENT) "ReadFile")).
Proof.
  split; [reflexivity|]. split; [reflexivity|]. split; [reflexivity|].
  exact (proj1 (proj2 (reaper_stat_failure_is_not_absence quiet (faulty statDenied)
                         FaultAccess eq_refl) eq_refl eq_refl)).
Defined.

Lemma reaper_process_lookup_failure_witness :
  In (EvSys (SysPsFindProcess 4242) (Some (OsError EIO)))
    (events (killMountProcess quiet (withPidFile "4242" true lookupFails))) /\
  outcome (killMountProcess quiet (withPidFile "4242" true lookupFails)) =
    Ret (Some (errors_Wrap (OsError EIO) "ps.FindProcess")) /\
  final (killMountProcess quiet (withPidFile "4242" true lookupFails)) =
    withPidFile "4242" true lookupFails.
Proof.
  assert (Hin : In (EvSys (SysPsFindProcess 4242) (Some (OsError EIO)))
                  (events (killMountProcess quiet (withPidFile "4242" true lookupFails))))
    by find_event.
  pose proof (reaper_process_lookup_failure quiet _ _ _ Hin) as (Hout & Hfinal & _).
  split; [exact Hin|]. now split.
Defined.

Lemma reaper_handle_failure_witness :
  In (EvSys (SysOsFindProcess 4242) (Some (OsError EPERM)))
    (events (killMountProcess quiet (withPidFile "4242" true handleDenied))) /\
  outcome (killMountProcess quiet (withPidFile "4242" true handleDenied)) =
    Ret (Some (errors_Wrap (OsError EPERM) "os.FindProcess")) /\
  final (killMountProcess quiet (withPidFile "4242" true handleDenied)) =
    withPidFile "4242" true handleDenied.
Proof.
  assert (Hin : In (EvSys (SysOsFindProcess 4242) (Some (OsError EPERM)))
                  (events (killMountProcess quiet (withPidFile "4242" true handleDenied))))
    by find_event.
  pose proof (reaper_handle_failure quiet _ _ _ Hin) as (Hout & Hfinal & _).
  split; [exact Hin|]. now split.
Defined.

Lemma reaper_signals_only_recorded_pid_witness :
  In (EvSys (SysKill 4242) None)
    (events (killMountProcess quiet (withPidFile "4242" true noFault))) /\
  (exists contents exe,
      read_result (withPidFile "4242" true noFault) (mountProcessPath quiet) = inl contents /\
      strconv_Atoi contents = inl 4242 /\
      psfind_result (withPidFile "4242" true noFault) 4242 = inl (Some exe)) /\
  length (filter (fun e => isKill e = true)
            (events (killMountProcess quiet (withPidFile "4242" true noFault)))) = 1%nat.
Proof.
  assert (Hin : In (EvSys (SysKill 4242) None)
                  (events (killMountProcess quiet (withPidFile "4242" true noFault))))
    by find_event.
  pose proof (reaper_signals_only_recorded_pid quiet _ _ _ Hin) as (Hrec & _ & Hone).
  split; [exact Hin|]. now split.
Defined.

Lemma reaper_signals_any_live_process_witness :
  read_result (withPidFile "4242" true noFault) (mountProcessPath quiet) = inl "4242" /\
  strconv_Atoi "4242" = inl 4242 /\
  psfind_result (withPidFile "4242" true noFault) 4242 = inl (Some "minikube") /\
  faults (withPidFile "4242" true noFault) (SysOsFindProcess 4242) = None /\
  exists pre post,
    events (killMountProcess quiet (withPidFile "4242" true noFault)) =
      (pre ++ [Glog "Found process %d: %s" [VInt 4242; VStr "minikube"];
               EvSys (SysOsFindProcess 4242) None;
               Glog "Killing pid %d ..." [VInt 4242];
               EvSys (SysKill 4242) (kill_result (withPidFile "4242" true noFault) 4242)]
           ++ post)%list.
Proof.
  do 4 (split; [reflexivity|]).
  exact (reaper_signals_any_live_process quiet (withPidFile "4242" true noFault)
           "4242" 4242 "minikube" eq_refl eq_refl eq_refl eq_refl).
Defined.

Lemma reaper_rerun_after_removal_witness :
  In (EvSys (SysRemove (mountProcessPath quiet)) None)
    (events (killMountProcess quiet (withPidFile "4242" false noFault))) /\
  faults (withPidFile "4242" false noFault) (SysStat (mountProcessPath quiet)) = None /\
  killMountProcess quiet (final (killMountProcess quiet (withPidFile "4242" false noFault))) =
    mkRun (Ret None) (final (killMountProcess quiet (withPidFile "4242" false noFault)))
      [EvSys (SysStat (mountProcessPath quiet)) (Some (OsError ENOENT))].
Proof.
  assert (Hin : In (EvSys (SysRemove (mountProcessPath quiet)) None)
                  (events (killMountProcess quiet (withPidFile "4242" false noFault))))
    by find_event.
  split; [exact Hin|]. split; [reflexivity|].
  exact (proj2 (reaper_rerun_after_removal quiet _ Hin eq_refl)).
Defined.

Lemma reaper_success_causes_witness :
  outcome (killMountProcess quiet (withPidFile "4242" false noFault)) = Ret None /\
  (os_IsNotExist (stat_result (withPidFile "4242" false noFault) (mountProcessPath quiet))
     = true \/
   (exists pid,
       psfind_result (withPidFile "4242" false noFault) pid = inl None /\
       In (EvSys (SysRemove (mountProcessPath quiet)) None)
         (events (killMountProcess quiet (withPidFile "4242" false noFault)))) \/
   (exists pid,
       In (EvSys (SysKill pid) None)
         (events (killMountProcess quiet (withPidFile "4242" false noFault))))).
Proof.
  split; [reflexivity|].
  exact (reaper_success_causes quiet (withPidFile "4242" false noFault) eq_refl).
Defined.

Lemma profile_directories_gone_witness :
  faults plain (SysStat (machineDir quiet "a")) = None /\
  faults plain (SysStat (profileDir quiet "a")) = None /\
  outcome (deleteProfileDirectory quiet "a" plain) = Ret tt /\
  fs (final (deleteProfileDirectory quiet "a" plain)) !! machineDir quiet "a" = None /\
  fs (final (deleteProfileDirectory quiet "a" plain)) !! profileDir quiet "a" = None /\
  fs (final (deleteProfileDirectory quiet "a" plain))
    !! filepath_Join root ["profiles"; "a"; "config.json"] = None.
Proof.
  pose proof (profile_directories_gone quiet plain "a" eq_refl eq_refl eq_refl)
    as (Hm & Hp & _ & Hbelow).
  do 3 (split; [reflexivity|]). split; [exact Hm|]. split; [exact Hp|].
  apply Hbelow.
  - eexists. reflexivity.
  - now exists ["config.json"].
Defined.

Lemma directory_removal_failure_is_fatal_witness :
  In (EvSys (SysRemoveAll (machineDir quiet "a")) (Some (OsError EACCES)))
    (events (deleteProfileDirectory quiet "a" (faulty removeAllDenied))) /\
  outcome (deleteProfileDirectory quiet "a" (faulty removeAllDenied)) =
    Exited (exit_status quiet "Unable to remove machine directory: %v" (OsError EACCES)).
Proof.
  assert (Hin : In (EvSys (SysRemoveAll (machineDir quiet "a")) (Some (OsError EACCES)))
                  (events (deleteProfileDirectory quiet "a" (faulty removeAllDenied))))
    by find_event.
  pose proof (directory_removal_failure_is_fatal quiet _ "a" _ _ Hin) as (_ & Hout & _).
  now split.
Defined.

Lemma fatal_step_terminates_witness :
  fatalMessage (CSet "profile" "a") = Some "Setting profile failed" /\
  In (EvCall (CSet "profile" "a") (Some diskFull)) (events (deleteProfile unsettable "a" plain)) /\
  outcome (deleteProfile unsettable "a" plain) =
    Exited (exit_status unsettable "Setting profile failed" diskFull).
Proof.
  assert (Hin : In (EvCall (CSet "profile" "a") (Some diskFull))
                  (events (deleteProfile unsettable "a" plain))) by find_event.
  pose proof (fatal_step_terminates unsettable "a" plain (CSet "profile" "a") diskFull
                "Setting profile failed" eq_refl Hin) as [Hout _].
  split; [reflexivity|]. now split.
Defined.

Lemma soft_failures_do_not_abort_witness :
  In (EvCall CNewAPIClient None) (events (deleteProfile quiet "a" plain)) /\
  (exists r, In (EvCall CDeleteHost r) (events (deleteProfile quiet "a" plain))) /\
  ((exists r, In (EvCall (CDeleteProfile "a") r) (events (deleteProfile quiet "a" plain))) \/
   (exists e, isFailedRemoval e /\ In e (events (deleteProfile quiet "a" plain)))).
Proof.
  assert (Hin : In (EvCall CNewAPIClient None) (events (deleteProfile quiet "a" plain)))
    by find_event.
  pose proof (soft_failures_do_not_abort quiet "a" plain Hin)
    as (_ & _ & Hhost & _ & Hmeta).
  split; [exact Hin|]. now split.
Defined.

Lemma uninstall_only_for_none_driver_witness :
  cmdcfg_Set quiet (pkg_config_MachineProfile quiet) "a" plain = (None, plain) /\
  machine_NewAPIClient quiet plain = (inl tt, plain) /\
  pkg_config_Load quiet plain = (inr notFound, plain) /\
  Forall (fun e => isBootstrapperCall e = false) (events (deleteProfile quiet "a" plain)).
Proof.
  do 3 (split; [reflexivity|]).
  exact (uninstall_only_for_none_driver quiet "a" plain plain plain plain tt (inr notFound)
           eq_refl eq_refl eq_refl I).
Defined.

Lemma positional_arguments_are_refused_witness :
  ["minikube2"] <> [] /\
  runDelete quiet ["minikube2"] plain =
    mkRun (Exited (exit_BadUsage quiet)) plain [EvUsage "Usage: minikube delete"].
Proof.
  assert (Hargs : ["minikube2"] <> []) by discriminate.
  split; [exact Hargs|].
  exact (positional_arguments_are_refused quiet plain ["minikube2"] Hargs).
Defined.

Lemma guard_only_for_unforced_purge_of_several_witness :
  pkg_config_ListProfiles purging plain = ([{| Name := "a" |}], [], None) /\
  (length [{| Name := "a" |}] <= 1)%nat /\
  runDelete purging [] plain =
    prepend ([EvCall CListProfiles None] ++ flagLog purging)
      (teardownAndPurge purging [{| Name := "a" |}] plain).
Proof.
  assert (Hlen : (length [{| Name := "a" |}] <= 1)%nat) by (simpl; lia).
  split; [reflexivity|]. split; [exact Hlen|].
  exact (guard_only_for_unforced_purge_of_several purging plain _ [] None eq_refl
           (or_introl Hlen)).
Defined.

Lemma no_purge_keeps_root_witness :
  viper_GetBool quiet purge = false /\
  Forall (fun e => ~ isRootRemoval quiet e) (events (runDelete quiet [] plain)).
Proof.
  split; [reflexivity|]. exact (no_purge_keeps_root quiet plain [] eq_refl).
Defined.

Lemma teardown_stops_at_first_exit_witness :
  pkg_config_ListProfiles goneOfTwo plain
    = (([] ++ {| Name := "a" |} :: [{| Name := "b" |}])%list, [], None) /\
  guard goneOfTwo ([] ++ {| Name := "a" |} :: [{| Name := "b" |}])%list None = false /\
  outcome (teardownAll goneOfTwo [] plain) = Ret tt /\
  outcome (deleteProfile goneOfTwo "a" (final (teardownAll goneOfTwo [] plain))) = Exited 0 /\
  outcome (runDelete goneOfTwo [] plain) = Exited 0 /\
  events (runDelete goneOfTwo [] plain) =
    ([EvCall CListProfiles None] ++ flagLog goneOfTwo ++
     events (teardownAll goneOfTwo [] plain) ++
     events (deleteProfile goneOfTwo "a" (final (teardownAll goneOfTwo [] plain))))%list.
Proof.
  pose proof (teardown_stops_at_first_exit goneOfTwo plain [] [{| Name := "b" |}] []
                {| Name := "a" |} None 0 eq_refl eq_refl eq_refl eq_refl) as [_ Hrun].
  do 4 (split; [reflexivity|]). rewrite Hrun. cbn [outcome events]. split; reflexivity.
Defined.
